(** * Logistics Data Extractor: the browser front-end

    A shallow embedding of the React components of [frontend/src]
    ([main.tsx], [App.tsx], [components/FileUpload.tsx],
    [components/DocViewer.tsx], [components/ExtractionForm.tsx]) and the
    properties of the upload / preview / save flow.

    Every event handler is a computation in a state monad over a [World]:
    the component's [useState] cells, the browser facilities the handlers
    call (alert, console, object URLs, timers, the clock) and the requests
    handed to axios.  Each call of a state setter or of a browser function
    is also appended to a log, so that the order of the calls inside one
    handler can be stated.  An [await] splits a handler in two: the part
    that runs up to the request, and the part that runs when the request
    settles. *)

From Stdlib Require Import String Ascii List Bool Arith Lia ZArith Floats.
From Stdlib Require Import Strings.Byte.
From ExtLib Require Import Structures.Monad Structures.MonadState Data.Monads.StateMonad.
Import ListNotations MonadNotation.
Local Open Scope monad_scope.
Local Open Scope string_scope.
Local Open Scope list_scope.

Set Implicit Arguments.

(** ** JavaScript strings

    File names are byte strings; [toLowerCase] folds the letters A-Z, which
    is all the extension tests below depend on. *)
Module JsString.

Definition lowerChar (c : ascii) : ascii :=
  let n := nat_of_ascii c in
  if (65 <=? n)%nat && (n <=? 90)%nat then ascii_of_nat (n + 32) else c.

Fixpoint toLowerCase (s : string) : string :=
  match s with
  | EmptyString => EmptyString
  | String c t => String (lowerChar c) (toLowerCase t)
  end.

(** [s.endsWith(suffix)]: some tail of [s] is [suffix]. *)
Fixpoint endsWith (s suffix : string) : bool :=
  String.eqb s suffix ||
  match s with
  | EmptyString => false
  | String _ t => endsWith t suffix
  end.

(** [s.replace(/^\/+/, '')] *)
Fixpoint stripLeadingSlashes (s : string) : string :=
  match s with
  | String "/"%char t => stripLeadingSlashes t
  | _ => s
  end.

(** [s.replace(/\/?\/$/, '')]: one or two slashes at the end go. *)
Fixpoint stripTrailingSlashes (s : string) : string :=
  match s with
  | EmptyString => EmptyString
  | String c t =>
      if String.eqb s "/" || String.eqb s "//" then EmptyString
      else String c (stripTrailingSlashes t)
  end.

End JsString.
Import JsString.

(** ** Values that cross the component boundaries *)

Definition number := float.

Record File := { name : string; content : list byte }.

(** The name of the file is a stem followed by [ext] in any mix of cases. *)
Definition hasExtension (ext : string) (f : File) : Prop :=
  exists stem e, name f = String.append stem e /\ toLowerCase e = ext.

Definition isPdfFile (f : File) : Prop := hasExtension ".pdf" f.
Definition isSpreadsheetFile (f : File) : Prop :=
  hasExtension ".xlsx" f \/ hasExtension ".xls" f.

(** [ShipmentData] of ExtractionForm.tsx. *)
Record ShipmentData := {
  bill_of_lading_number : option string;
  container_number : option string;
  consignee_name : option string;
  consignee_address : option string;
  date_of_export : option string;
  line_items_count : option number;
  total_gross_weight : option number;
  total_invoice_amount : option number;
  average_gross_weight : option number;
  average_price : option number
}.

Inductive SaveStatus := idle | saving | success | error.

(** A blob URL handed out by [URL.createObjectURL], by serial number. *)
Definition Url := nat.

Definition Sheet := list (list string).

(** The body of a request. [FormData] keeps its parts in append order. *)
Inductive Payload :=
| FormData (parts : list (string * File))
| JsonBody (values : ShipmentData).

(** The handler that is suspended at an [await axios.post(...)]. *)
Inductive Awaiting := await_process_documents | await_save_shipment.

Record Request := {
  req_url : string;          (* the URL axios sends to *)
  req_payload : Payload;
  req_headers : list (string * string);
  req_awaiting : Awaiting
}.

(** How a request settles: the promise is fulfilled with a response body
    or rejected (network error or a status outside 2xx). *)
Inductive Settled (A : Type) :=
| Fulfilled (response_data : A)
| Rejected (reason : string).
Arguments Rejected {A} reason.

Inductive TimerCallback := reset_save_status.   (* () => setSaveStatus('idle') *)

Record Timer := { due : nat; callback : TimerCallback }.

Inductive Event :=
| ev_alert (msg : string)
| ev_console_error (msg : string)
| ev_preventDefault
| ev_axios_post (requested full : string) (payload : Payload)
| ev_setFiles (fs : list File)
| ev_setActiveFileIndex (i : nat)
| ev_setData (d : option ShipmentData)
| ev_setIsLoading (b : bool)
| ev_setNumPages (n : Z)
| ev_setPageNumber (n : Z)
| ev_setFileUrl (u : option Url)
| ev_setExcelData (d : option Sheet)
| ev_createObjectURL (f : File) (u : Url)
| ev_revokeObjectURL (u : Url)
| ev_readAsArrayBuffer (f : File)
| ev_setValue (values : ShipmentData)
| ev_setSaveStatus (s : SaveStatus)
| ev_setTimeout (cb : TimerCallback) (ms : nat).

(** ** The world a handler runs in *)

Record World (S : Type) := mkWorld {
  st : S;                              (* the component's useState cells *)
  baseURL : option string;             (* axios.defaults.baseURL *)
  log : list Event;
  inflight : list Request;             (* requests that have not settled *)
  objectURLs : list (option File);     (* blob URL n -> its blob; None once revoked *)
  reads : list File;                   (* FileReader reads that have not completed *)
  timers : list Timer;
  now : nat                            (* milliseconds *)
}.

Abbreviation M S := (state (World S)).

Section WorldOps.
Context {S : Type}.

Definition with_st (f : S -> S) (w : World S) : World S :=
  mkWorld (f (st w)) (baseURL w) (log w) (inflight w) (objectURLs w) (reads w) (timers w) (now w).
Definition with_log (f : list Event -> list Event) (w : World S) : World S :=
  mkWorld (st w) (baseURL w) (f (log w)) (inflight w) (objectURLs w) (reads w) (timers w) (now w).
Definition with_inflight (f : list Request -> list Request) (w : World S) : World S :=
  mkWorld (st w) (baseURL w) (log w) (f (inflight w)) (objectURLs w) (reads w) (timers w) (now w).
Definition with_objectURLs (f : list (option File) -> list (option File)) (w : World S) : World S :=
  mkWorld (st w) (baseURL w) (log w) (inflight w) (f (objectURLs w)) (reads w) (timers w) (now w).
Definition with_reads (f : list File -> list File) (w : World S) : World S :=
  mkWorld (st w) (baseURL w) (log w) (inflight w) (objectURLs w) (f (reads w)) (timers w) (now w).
Definition with_timers (f : list Timer -> list Timer) (w : World S) : World S :=
  mkWorld (st w) (baseURL w) (log w) (inflight w) (objectURLs w) (reads w) (f (timers w)) (now w).
Definition with_now (f : nat -> nat) (w : World S) : World S :=
  mkWorld (st w) (baseURL w) (log w) (inflight w) (objectURLs w) (reads w) (timers w) (f (now w)).

Definition emit (e : Event) : M S unit :=
  modify (with_log (fun l => l ++ [e])) ;; ret tt.

(** A state setter: the cell is written and the call is logged. *)
Definition setter (e : Event) (f : S -> S) : M S unit :=
  modify (with_st f) ;; emit e.

Definition reading {A : Type} (f : S -> A) : M S A :=
  w <- get ;; ret (f (st w)).

Definition exec {A : Type} (c : M S A) (w : World S) : World S :=
  snd (runState c w).

Definition alert (msg : string) : M S unit := emit (ev_alert msg).
Definition console_error (msg : string) : M S unit := emit (ev_console_error msg).
End WorldOps.

Arguments with_st {S} f w /.
Arguments with_log {S} f w /.
Arguments with_inflight {S} f w /.
Arguments with_objectURLs {S} f w /.
Arguments with_reads {S} f w /.
Arguments with_timers {S} f w /.
Arguments with_now {S} f w /.

(** The list without its [k]-th entry. *)
Fixpoint removeNth {A : Type} (k : nat) (l : list A) : list A :=
  match l, k with
  | [], _ => []
  | _ :: r, O => r
  | x :: r, S k' => x :: removeNth k' r
  end.

(** A component as the events drive it: [step] gives the state after one
    event, or nothing when the event is not on offer. *)
Section Runs.
Context {C E : Type}.
Variable step : C -> E -> option C.

Fixpoint runEvents (c : C) (es : list E) : option C :=
  match es with
  | [] => Some c
  | e :: r => match step c e with Some c' => runEvents c' r | None => None end
  end.
End Runs.

(** ** axios

    The library resolves the URL of a request against
    [axios.defaults.baseURL]: a requested URL that is absolute (it starts
    with a scheme and two slashes, or with two slashes) is used as it is,
    any other one is joined to the base. *)
Module Axios.

Definition isLetter (c : ascii) : bool :=
  let n := nat_of_ascii (lowerChar c) in (97 <=? n)%nat && (n <=? 122)%nat.

Definition isSchemeChar (c : ascii) : bool :=
  let n := nat_of_ascii c in
  isLetter c || ((48 <=? n)%nat && (n <=? 57)%nat) ||
  Ascii.eqb c "+" || Ascii.eqb c "-" || Ascii.eqb c ".".

(** What is left of [s] after [[a-z\d+\-.]*:], if it starts so. *)
Fixpoint afterScheme (s : string) : option string :=
  match s with
  | EmptyString => None
  | String c t =>
      if Ascii.eqb c ":" then Some t
      else if isSchemeChar c then afterScheme t
      else None
  end.

(** [/^([a-z][a-z\d+\-.]*:)?\/\//i.test(url)] *)
Definition isAbsoluteURL (url : string) : bool :=
  String.prefix "//" url ||
  match url with
  | String c t =>
      isLetter c &&
      match afterScheme t with
      | Some rest => String.prefix "//" rest
      | None => false
      end
  | EmptyString => false
  end.

Definition combineURLs (base relativeURL : string) : string :=
  match relativeURL with
  | EmptyString => base
  | _ => String.append (stripTrailingSlashes base)
           (String.append "/" (stripLeadingSlashes relativeURL))
  end.

Definition buildFullPath (base : option string) (requestedURL : string) : string :=
  match base with
  | Some b =>
      if negb (String.eqb b "") && negb (isAbsoluteURL requestedURL)
      then combineURLs b requestedURL
      else requestedURL
  | None => requestedURL
  end.

(** [axios.post(url, payload, {headers})] up to the point where the
    caller awaits: the request leaves for the resolved URL and stays in
    flight until it settles. *)
Definition post {S : Type} (url : string) (payload : Payload)
    (headers : list (string * string)) (k : Awaiting) : M S unit :=
  w <- get ;;
  let full := buildFullPath (baseURL w) url in
  emit (ev_axios_post url full payload) ;;
  modify (with_inflight (fun l => l ++ [Build_Request full payload headers k])) ;;
  ret tt.

End Axios.

(** ** main.tsx

    [axios.defaults.baseURL = import.meta.env.VITE_API_URL || 'http://localhost:8080'];
    the argument is the value of the variable at build time, if it is set. *)
Definition configuredBaseURL (VITE_API_URL : option string) : string :=
  match VITE_API_URL with
  | Some u => if String.eqb u "" then "http://localhost:8080" else u
  | None => "http://localhost:8080"
  end.

Definition main {S : Type} (VITE_API_URL : option string) (init : S) : World S :=
  mkWorld init (Some (configuredBaseURL VITE_API_URL)) [] [] [] [] [] 0.

(** ** App.tsx *)
Module App.

Record State := {
  files : list File;
  activeFileIndex : nat;
  data : option ShipmentData;
  isLoading : bool
}.

(** The four [useState] initial values. *)
Definition initial : State :=
  {| files := []; activeFileIndex := 0; data := None; isLoading := false |}.

Definition setFiles (fs : list File) : M State unit :=
  setter (ev_setFiles fs)
    (fun s => Build_State fs (activeFileIndex s) (data s) (isLoading s)).
Definition setActiveFileIndex (i : nat) : M State unit :=
  setter (ev_setActiveFileIndex i)
    (fun s => Build_State (files s) i (data s) (isLoading s)).
Definition setData (d : option ShipmentData) : M State unit :=
  setter (ev_setData d)
    (fun s => Build_State (files s) (activeFileIndex s) d (isLoading s)).
Definition setIsLoading (b : bool) : M State unit :=
  setter (ev_setIsLoading b)
    (fun s => Build_State (files s) (activeFileIndex s) (data s) b).

Definition hasPdf (selectedFiles : list File) : bool :=
  existsb (fun f => endsWith (toLowerCase (name f)) ".pdf") selectedFiles.

Definition hasExcel (selectedFiles : list File) : bool :=
  existsb (fun f => endsWith (toLowerCase (name f)) ".xlsx"
                    || endsWith (toLowerCase (name f)) ".xls") selectedFiles.

Definition missingFilesMessage : string :=
  "Please upload both a PDF (Bill of Lading) and an Excel file (Packing List/Invoice) to proceed.".

Definition extractionFailedMessage : string :=
  "Failed to extract data. Please check the console for details.".

(** [selectedFiles.forEach(file => formData.append('files', file))] *)
Definition buildFormData (selectedFiles : list File) : list (string * File) :=
  fold_left (fun formData file => formData ++ [("files", file)]) selectedFiles [].

(** [handleFilesSelected] up to its [await]. *)
Definition handleFilesSelected (selectedFiles : list File) : M State unit :=
  if negb (hasPdf selectedFiles) || negb (hasExcel selectedFiles) then
    alert missingFilesMessage
  else
    setFiles selectedFiles ;;
    setIsLoading true ;;
    setData None ;;
    Axios.post "http://localhost:8000/process-documents"
      (FormData (buildFormData selectedFiles))
      [("Content-Type", "multipart/form-data")]
      await_process_documents.

(** [handleFilesSelected] from its [await] on: the [try] continues or the
    [catch] runs, then the [finally]. *)
Definition handleFilesSelected_settled (r : Settled ShipmentData) : M State unit :=
  match r with
  | Fulfilled response_data => setData (Some response_data)
  | Rejected reason =>
      console_error "Extraction failed:" ;;
      alert extractionFailedMessage
  end ;;
  setIsLoading false.

(** The [onClick] of the Reset / New Upload button. *)
Definition handleReset : M State unit := setFiles [].

End App.

(** ** components/FileUpload.tsx *)
Module FileUpload.
Section Props.
Context {S : Type}.
Variable onFilesSelected : list File -> M S unit.
Variable isLoading : bool.

(** [droppedFiles] is [Array.from(e.dataTransfer.files)]. *)
Definition handleDrop (droppedFiles : list File) : M S unit :=
  emit ev_preventDefault ;;
  if isLoading then ret tt
  else onFilesSelected droppedFiles.

(** The argument is [e.target.files], which may be null. *)
Definition handleChange (target_files : option (list File)) : M S unit :=
  match target_files with
  | Some selectedFiles =>
      if negb isLoading then onFilesSelected selectedFiles else ret tt
  | None => ret tt
  end.
End Props.
End FileUpload.

(** ** components/DocViewer.tsx *)
Module DocViewer.

Record Props := { files : list File; activeFileIndex : nat }.

Record State := {
  numPages : Z;
  pageNumber : Z;
  fileUrl : option Url;
  excelData : option Sheet
}.

Definition initial : State :=
  {| numPages := 0; pageNumber := 1; fileUrl := None; excelData := None |}.

Definition setNumPages (n : Z) : M State unit :=
  setter (ev_setNumPages n)
    (fun s => Build_State n (pageNumber s) (fileUrl s) (excelData s)).
Definition setPageNumber (n : Z) : M State unit :=
  setter (ev_setPageNumber n)
    (fun s => Build_State (numPages s) n (fileUrl s) (excelData s)).
Definition setFileUrl (u : option Url) : M State unit :=
  setter (ev_setFileUrl u)
    (fun s => Build_State (numPages s) (pageNumber s) u (excelData s)).
Definition setExcelData (d : option Sheet) : M State unit :=
  setter (ev_setExcelData d)
    (fun s => Build_State (numPages s) (pageNumber s) (fileUrl s) d).

(** [URL.createObjectURL(blob)]: a URL that was never handed out. *)
Definition createObjectURL (f : File) : M State Url :=
  w <- get ;;
  let u := length (objectURLs w) in
  modify (with_objectURLs (fun l => l ++ [Some f])) ;;
  emit (ev_createObjectURL f u) ;;
  ret u.

Fixpoint revoke (u : Url) (l : list (option File)) : list (option File) :=
  match l, u with
  | [], _ => []
  | _ :: r, O => None :: r
  | x :: r, S u' => x :: revoke u' r
  end.

Definition revokeObjectURL (u : Url) : M State unit :=
  modify (with_objectURLs (revoke u)) ;;
  emit (ev_revokeObjectURL u).

(** [reader.readAsArrayBuffer(file)]: the read is under way. *)
Definition readAsArrayBuffer (f : File) : M State unit :=
  modify (with_reads (fun l => l ++ [f])) ;;
  emit (ev_readAsArrayBuffer f).

(** The body of [useEffect(..., [activeFile])]. The result is the cleanup
    function it returns: the URL that [URL.revokeObjectURL] will get. *)
Definition activeFileEffect (activeFile : option File) : M State (option Url) :=
  match activeFile with
  | Some activeFile =>
      setNumPages 0 ;;
      setPageNumber 1 ;;
      setFileUrl None ;;
      setExcelData None ;;
      let lowerName := toLowerCase (name activeFile) in
      if endsWith lowerName ".pdf" then
        url <- createObjectURL activeFile ;;
        setFileUrl (Some url) ;;
        ret (Some url)
      else if endsWith lowerName ".xlsx" || endsWith lowerName ".xls" then
        readAsArrayBuffer activeFile ;;
        ret None
      else ret None
  | None => ret None
  end.

Definition runCleanup (cleanup : option Url) : M State unit :=
  match cleanup with
  | Some url => revokeObjectURL url
  | None => ret tt
  end.

Definition onDocumentLoadSuccess (loaded_numPages : Z) : M State unit :=
  setNumPages loaded_numPages.

(** [setPageNumber(p => p - 1)] and [setPageNumber(p => p + 1)] *)
Definition previousPage : M State unit :=
  p <- reading pageNumber ;; setPageNumber (p - 1).
Definition nextPage : M State unit :=
  p <- reading pageNumber ;; setPageNumber (p + 1).

(** *** What the component renders *)

Record Tab := { tab_index : nat; tab_label : string; tab_active : bool }.

Record NavControls := {
  back_disabled : bool;
  shown_page : Z;
  shown_total : Z;
  forward_disabled : bool
}.

Inductive Content :=
| PdfDocument (file : Url) (page : Z) (nav : option NavControls)
| ExcelTable (rows : Sheet)
| NoPreview (filename : string).

Inductive View :=
| NoDocumentSelected
| Viewer (tabs : list Tab) (content : Content).

(** [files.map((file, index) => <button ...>)] *)
Fixpoint tabsFrom (index : nat) (active : nat) (fs : list File) : list Tab :=
  match fs with
  | [] => []
  | file :: r =>
      Build_Tab index (name file) (index =? active)%nat :: tabsFrom (S index) active r
  end.

Definition render (p : Props) (s : State) : View :=
  match nth_error (files p) (activeFileIndex p) with
  | None => NoDocumentSelected
  | Some activeFile =>
      let isPdf := endsWith (toLowerCase (name activeFile)) ".pdf" in
      let isExcel := endsWith (toLowerCase (name activeFile)) ".xlsx"
                     || endsWith (toLowerCase (name activeFile)) ".xls" in
      Viewer (tabsFrom 0 (activeFileIndex p) (files p))
        match isPdf, fileUrl s with
        | true, Some url =>
            PdfDocument url (pageNumber s)
              (if (1 <? numPages s)%Z then
                 Some {| back_disabled := (pageNumber s <=? 1)%Z;
                         shown_page := pageNumber s;
                         shown_total := numPages s;
                         forward_disabled := (numPages s <=? pageNumber s)%Z |}
               else None)
        | _, _ =>
            match isExcel, excelData s with
            | true, Some rows => ExcelTable rows
            | _, _ => NoPreview (name activeFile)
            end
        end
  end.

(** *** The mounted component

    React keeps the props of the last render and the cleanup function of
    the last effect run next to the state cells. *)
Record Mounted := {
  props : Props;
  cleanup : option Url;
  world : World State
}.

Definition activeFile (p : Props) : option File :=
  nth_error (files p) (activeFileIndex p).

(** The effect runs: the previous cleanup first, then the body. *)
Definition runEffect (p : Props) (cleanup : option Url) (w : World State) : Mounted :=
  let (c, w') := runState (runCleanup cleanup ;; activeFileEffect (activeFile p)) w in
  {| props := p; cleanup := c; world := w' |}.

(** First render with the given props, in the given browser. *)
Definition mount {S : Type} (p : Props) (browser : World S) : Mounted :=
  runEffect p None
    (mkWorld initial (baseURL browser) (log browser) (inflight browser)
             (objectURLs browser) (reads browser) (timers browser) (now browser)).

Inductive UiEvent :=
| click_tab (index : nat)
| document_loaded            (* <Document> calls onLoadSuccess *)
| click_back
| click_forward
| reader_onload (k : nat).   (* the k-th pending FileReader read completes *)

(** The body of [reader.onload], given what [read(data, {type: 'array'})]
    followed by [utils.sheet_to_json(firstSheet, {header: 1})] makes of
    the bytes: the rows, or nothing when [read] throws on them. The
    handler has no [try]: when [read] throws, it ends there and
    [setExcelData] is not called. *)
Definition onload (parsed : option Sheet) : M State unit :=
  match parsed with
  | Some json => setExcelData (Some json)
  | None => ret tt
  end.

Section Libraries.
(** The page count pdf.js reports for a document, and the rows
    [read] and [utils.sheet_to_json(firstSheet, {header: 1})] give for
    the bytes of a workbook, [None] for bytes on which [read] throws. *)
Variable pdf_numPages : list byte -> Z.
Variable sheet_to_json : list byte -> option Sheet.

(** One event on the mounted component; [None] when the rendered view
    does not offer it (no such tab, control absent or disabled, nothing
    to load). The files of a mounted viewer are distinct objects, so
    the active file changes exactly when the index does. *)
Definition step (m : Mounted) (e : UiEvent) : option Mounted :=
  let w := world m in
  match render (props m) (st w), e with
  | Viewer tabs _, click_tab index =>
      if existsb (fun t => (tab_index t =? index)%nat) tabs then
        if (index =? activeFileIndex (props m))%nat then Some m
        else Some (runEffect {| files := files (props m); activeFileIndex := index |}
                             (cleanup m) w)
      else None
  | Viewer _ (PdfDocument url _ _), document_loaded =>
      match nth_error (objectURLs w) url with
      | Some (Some f) =>
          Some {| props := props m; cleanup := cleanup m;
                  world := exec (onDocumentLoadSuccess (pdf_numPages (content f))) w |}
      | _ => None
      end
  | Viewer _ (PdfDocument _ _ (Some nav)), click_back =>
      if back_disabled nav then None
      else Some {| props := props m; cleanup := cleanup m; world := exec previousPage w |}
  | Viewer _ (PdfDocument _ _ (Some nav)), click_forward =>
      if forward_disabled nav then None
      else Some {| props := props m; cleanup := cleanup m; world := exec nextPage w |}
  | _, reader_onload k =>
      match nth_error (reads w) k with
      | Some f =>
          Some {| props := props m; cleanup := cleanup m;
                  world := exec (onload (sheet_to_json (content f)))
                                (with_reads (removeNth k) w) |}
      | None => None
      end
  | _, _ => None
  end.

Definition run : Mounted -> list UiEvent -> option Mounted := runEvents step.

Definition reachable (m : Mounted) : Prop :=
  exists (p : Props) (browser : World unit) (es : list UiEvent),
    run (mount p browser) es = Some m.
End Libraries.

End DocViewer.

(** ** components/ExtractionForm.tsx *)
Module ExtractionForm.

Record State := {
  values : ShipmentData;       (* the form values [getValues()] returns *)
  saveStatus : SaveStatus
}.

Definition setSaveStatus (x : SaveStatus) : M State unit :=
  setter (ev_setSaveStatus x) (fun s => Build_State (values s) x).

Definition getValues : M State ShipmentData := reading values.

(** [setTimeout(cb, ms)]: the timer queue is kept in firing order, a new
    timer going behind those due at the same time or earlier. *)
Fixpoint insertTimer (t : Timer) (ts : list Timer) : list Timer :=
  match ts with
  | [] => [t]
  | t' :: r => if (due t <? due t')%nat then t :: ts else t' :: insertTimer t r
  end.

Definition setTimeout (cb : TimerCallback) (ms : nat) : M State unit :=
  w <- get ;;
  modify (with_timers (insertTimer {| due := now w + ms; callback := cb |})) ;;
  emit (ev_setTimeout cb ms).

(** [handleSaveToBackend] up to its [await]. *)
Definition handleSaveToBackend : M State unit :=
  currentData <- getValues ;;
  setSaveStatus saving ;;
  Axios.post "/save-shipment" (JsonBody currentData) [] await_save_shipment.

(** [handleSaveToBackend] from its [await] on. *)
Definition handleSaveToBackend_settled (r : Settled unit) : M State unit :=
  match r with
  | Fulfilled _ =>
      setSaveStatus success ;;
      setTimeout reset_save_status 3000
  | Rejected reason =>
      console_error "Error saving to backend:" ;;
      setSaveStatus error ;;
      setTimeout reset_save_status 3000
  end.

Definition runCallback (cb : TimerCallback) : M State unit :=
  match cb with
  | reset_save_status => setSaveStatus idle
  end.

(** The timers of the queue that are due by [deadline] fire, each at its
    due time. No callback of this component sets a timer, so the ones
    that fire are among those pending when the clock moves. *)
Fixpoint fireDue (deadline : nat) (ts : list Timer) (w : World State) : World State :=
  match ts with
  | [] => with_timers (fun _ => []) w
  | t :: r =>
      if (due t <=? deadline)%nat then
        fireDue deadline r
          (exec (runCallback (callback t))
             (with_now (fun n => Nat.max n (due t)) (with_timers (fun _ => r) w)))
      else with_timers (fun _ => ts) w
  end.

(** [dt] milliseconds pass with nothing else happening. *)
Definition advance (dt : nat) (w : World State) : World State :=
  let deadline := now w + dt in
  with_now (fun _ => deadline) (fireDue deadline (timers w) w).

Definition saveDisabled (s : State) : bool :=
  match saveStatus s with
  | saving | success => true
  | _ => false
  end.

End ExtractionForm.

(** ** The application as the user drives it

    The events the rendered page offers: the intake surface while no file
    is held, the viewer's tabs and the Reset button while files are held,
    and the settling of a request in flight. *)
Module Shell.
Import App.

Inductive UiEvent :=
| drop (droppedFiles : list File)
| change (target_files : option (list File))
| click_reset
| click_tab (index : nat)
| settle (k : nat) (r : Settled ShipmentData).

Definition viewerProps (s : State) : DocViewer.Props :=
  {| DocViewer.files := files s; DocViewer.activeFileIndex := activeFileIndex s |}.

(** The tabs the viewer shows; they do not depend on its own state. *)
Definition shownTabs (s : State) : list DocViewer.Tab :=
  match DocViewer.render (viewerProps s) DocViewer.initial with
  | DocViewer.Viewer tabs _ => tabs
  | DocViewer.NoDocumentSelected => []
  end.

Definition step (w : World State) (e : UiEvent) : option (World State) :=
  let s := st w in
  match e with
  | drop droppedFiles =>
      if (length (files s) =? 0)%nat then
        Some (exec (FileUpload.handleDrop handleFilesSelected (isLoading s) droppedFiles) w)
      else None
  | change target_files =>
      if (length (files s) =? 0)%nat then
        Some (exec (FileUpload.handleChange handleFilesSelected (isLoading s) target_files) w)
      else None
  | click_reset =>
      if (0 <? length (files s))%nat && negb (isLoading s) then Some (exec handleReset w)
      else None
  | click_tab index =>
      if (0 <? length (files s))%nat
         && existsb (fun t => (DocViewer.tab_index t =? index)%nat) (shownTabs s)
      then Some (exec (setActiveFileIndex index) w)
      else None
  | settle k r =>
      match nth_error (inflight w) k with
      | Some _ =>
          Some (exec (handleFilesSelected_settled r)
                     (with_inflight (removeNth k) w))
      | None => None
      end
  end.

Definition run : World State -> list UiEvent -> option (World State) := runEvents step.

Definition start (VITE_API_URL : option string) : World State :=
  main VITE_API_URL initial.

Definition reachable (w : World State) : Prop :=
  exists (VITE_API_URL : option string) (es : list UiEvent),
    run (start VITE_API_URL) es = Some w.

(** The index picks a file of the set, or is 0. *)
Definition indexValidOrZero (s : State) : Prop :=
  activeFileIndex s < length (files s) \/ activeFileIndex s = 0.

End Shell.

(** ** Notions the properties are stated with *)

Section IntakeNotions.
Import App.

Definition extractionURL : string := "http://localhost:8000/process-documents".

Definition extractionRequest (selectedFiles : list File) : Request :=
  {| req_url := extractionURL;
     req_payload := FormData (buildFormData selectedFiles);
     req_headers := [("Content-Type", "multipart/form-data")];
     req_awaiting := await_process_documents |}.

(** Either nothing is in flight and the loading flag is off, or exactly
    one extraction is in flight, the flag is on, the record is null and
    files are held. *)
Definition quietOrLoading (w : World State) : Prop :=
  (inflight w = [] /\ isLoading (st w) = false) \/
  (exists req, inflight w = [req] /\ isLoading (st w) = true /\
               data (st w) = None /\ files (st w) <> []).

Definition noTabClick (es : list Shell.UiEvent) : Prop :=
  forall index, ~ In (Shell.click_tab index) es.

(** Where the index of [w] comes from, [w] being the state after the run
    [es]: no tab was clicked and the index is 0; or the run has a last
    tab click, the index is the one it chose, which was valid for the
    files shown at that click, and those files are still the current
    ones unless a Reset came after the click. *)
Definition indexFromLastTabClick
    (VITE_API_URL : option string) (es : list Shell.UiEvent) (w : World State) : Prop :=
  (noTabClick es /\ activeFileIndex (st w) = 0) \/
  exists es1 index es2 w1,
    es = es1 ++ Shell.click_tab index :: es2 /\
    noTabClick es2 /\
    Shell.run (Shell.start VITE_API_URL) (es1 ++ [Shell.click_tab index]) = Some w1 /\
    activeFileIndex (st w) = index /\
    index < length (files (st w1)) /\
    (~ In Shell.click_reset es2 -> files (st w) = files (st w1)).
End IntakeNotions.

Section PreviewNotions.
Import DocViewer.

(** The page count pdf.js reports for a document. *)
Variable pdf_numPages : list byte -> Z.

Definition isPdfName (f : File) : bool := endsWith (toLowerCase (name f)) ".pdf".

Definition isExcelName (f : File) : bool :=
  endsWith (toLowerCase (name f)) ".xlsx" || endsWith (toLowerCase (name f)) ".xls".

(** The four resets the effect starts with. *)
Definition resetEvents : list Event :=
  [ev_setNumPages 0; ev_setPageNumber 1; ev_setFileUrl None; ev_setExcelData None].

(** What the effect does next, by the extension of the file. *)
Definition loadEvents (f : File) (fresh : Url) : list Event :=
  if isPdfName f then [ev_createObjectURL f fresh; ev_setFileUrl (Some fresh)]
  else if isExcelName f then [ev_readAsArrayBuffer f]
  else [].

Definition pageInBounds (s : State) : Prop :=
  (1 <= pageNumber s)%Z /\ (pageNumber s = 1%Z \/ (pageNumber s <= numPages s)%Z).

(** The page count is 0 (not learned yet) or the count of the document
    behind the current object URL. *)
Definition countOfShownDocument (w : World State) : Prop :=
  numPages (st w) = 0%Z \/
  exists u f, fileUrl (st w) = Some u /\
              nth_error (objectURLs w) u = Some (Some f) /\
              numPages (st w) = pdf_numPages (content f).

Definition previewInvariant (m : Mounted) : Prop :=
  pageInBounds (st (world m)) /\ countOfShownDocument (world m).
End PreviewNotions.

Section SaveNotions.
Import ExtractionForm.

Definition saveRequest (base : option string) (currentData : ShipmentData) : Request :=
  {| req_url := Axios.buildFullPath base "/save-shipment";
     req_payload := JsonBody currentData;
     req_headers := [];
     req_awaiting := await_save_shipment |}.

(** The terminal status of a save that settled with [r]. *)
Definition terminalStatus (r : Settled unit) : SaveStatus :=
  match r with
  | Fulfilled _ => success
  | Rejected _ => error
  end.

Definition resetTimer (setAt : nat) : Timer :=
  {| due := setAt + 3000; callback := reset_save_status |}.
End SaveNotions.

(** ** Sample inputs *)

Section SampleUploads.
Definition bol_pdf : File := {| name := "BOL-123.PDF"; content := [] |}.

Definition packing_xlsx : File := {| name := "packing_list.xlsx"; content := [] |}.

Definition notes_txt : File := {| name := "notes.txt"; content := [] |}.

Definition sampleRecord : ShipmentData :=
  {| bill_of_lading_number := Some "BOL123";
     container_number := Some "MSCU1234567";
     consignee_name := Some "ACME Imports";
     consignee_address := None;
     date_of_export := Some "2024-03-01";
     line_items_count := Some 4%float;
     total_gross_weight := Some 400%float;
     total_invoice_amount := Some 1000.5%float;
     average_gross_weight := Some 100%float;
     average_price := Some 250.125%float |}.

(** Three files go up, the third tab is chosen, the extraction fails and
    the user resets. *)
Definition resetAfterThirdTab : list Shell.UiEvent :=
  [Shell.drop [bol_pdf; packing_xlsx; notes_txt];
   Shell.click_tab 2;
   Shell.settle 0 (Rejected "Network Error");
   Shell.click_reset].

(** ... and then uploads two files. *)
Definition reuploadTwoFiles : list Shell.UiEvent :=
  resetAfterThirdTab ++ [Shell.change (Some [bol_pdf; packing_xlsx])].
End SampleUploads.

Section SamplePreview.
Import DocViewer.

(** A browser with nothing in it, and a pdf.js that finds three pages. *)
Definition emptyBrowser : World unit := main None tt.

Definition threePages : list byte -> Z := fun _ => 3%Z.

Definition noRows : list byte -> option Sheet := fun _ => Some [].

Definition previewProps : Props :=
  {| files := [bol_pdf; packing_xlsx; notes_txt]; activeFileIndex := 0 |}.

Definition onPageTwo : option Mounted :=
  run threePages noRows (mount previewProps emptyBrowser) [document_loaded; click_forward].

Definition orMounted (o : option Mounted) : Mounted :=
  match o with
  | Some m => m
  | None => mount previewProps emptyBrowser
  end.

Definition pageTwo : Mounted := orMounted onPageTwo.

Definition pageThree : Mounted := orMounted (step threePages noRows pageTwo click_forward).

Definition secondTab : Mounted := orMounted (step threePages noRows pageTwo (click_tab 1)).
End SamplePreview.

Section SampleForm.
Import ExtractionForm.

Definition editedForm : World State :=
  main (Some "https://api.example.com") {| values := sampleRecord; saveStatus := idle |}.
End SampleForm.

(** ** More of the components *)

(** *** App.tsx: what the shell renders *)
Section ShellView.
Import App.

(** The parts of the page: the Reset button with its [disabled] flag, the
    intake surface with the [isLoading] it is given, the viewer with its
    props, the loading overlay, and the form with the record it is given. *)
Record AppView := {
  resetButton : option bool;
  intake : option bool;
  viewer : option DocViewer.Props;
  overlay : bool;
  formData : option (option ShipmentData)
}.

Definition renderApp (s : State) : AppView :=
  if (length (files s) =? 0)%nat then
    {| resetButton := None;
       intake := Some (isLoading s);
       viewer := None;
       overlay := false;
       formData := None |}
  else
    {| resetButton := Some (isLoading s);
       intake := None;
       viewer := Some (Shell.viewerProps s);
       overlay := isLoading s;
       formData := Some (data s) |}.

(** Every request in flight carries the files on display. *)
Definition inflightCarriesFiles (w : World State) : Prop :=
  forall req, In req (inflight w) -> req = extractionRequest (files (st w)).
End ShellView.

(** *** DocViewer.tsx: teardown, and the object URLs of the viewer *)
Section ViewerTeardown.
Import DocViewer.

(** React runs the cleanup of the last effect when the component goes. *)
Definition unmount (m : Mounted) : World State :=
  exec (runCleanup (cleanup m)) (world m).

(** The object URL [u] is live: it was handed out and not revoked. *)
Definition liveURL (w : World State) (u : Url) : Prop :=
  exists f, nth_error (objectURLs w) u = Some (Some f).

(** For a viewer mounted in a browser that had handed out [base] URLs:
    the cleanup React holds is for the URL in the state; that URL, if
    any, is one of the viewer's, is live and is the blob of the active
    file; no other URL of the viewer is live; a PDF is active exactly
    when there is a URL. *)
Definition urlInvariant (base : nat) (m : Mounted) : Prop :=
  let w := world m in
  cleanup m = fileUrl (st w) /\
  base <= length (objectURLs w) /\
  (forall u, fileUrl (st w) = Some u ->
             base <= u /\ exists f, activeFile (props m) = Some f /\ isPdfName f = true /\
                                    nth_error (objectURLs w) u = Some (Some f)) /\
  (forall u, base <= u -> liveURL w u -> fileUrl (st w) = Some u) /\
  (forall f, activeFile (props m) = Some f -> isPdfName f = true ->
             fileUrl (st w) <> None).
End ViewerTeardown.

(** *** ExtractionForm.tsx: the record effect, the download, the page *)
Module FormPage.
Import ExtractionForm.

Inductive Key :=
| k_bill_of_lading_number | k_container_number | k_consignee_name
| k_consignee_address | k_date_of_export | k_line_items_count
| k_total_gross_weight | k_total_invoice_amount | k_average_gross_weight
| k_average_price.

(** [Object.keys(data)] for a record of the declared shape. *)
Definition keys : list Key :=
  [k_bill_of_lading_number; k_container_number; k_consignee_name;
   k_consignee_address; k_date_of_export; k_line_items_count;
   k_total_gross_weight; k_total_invoice_amount; k_average_gross_weight;
   k_average_price].

(** The form values with field [k] taken from [d]. *)
Definition assign (k : Key) (d v : ShipmentData) : ShipmentData :=
  match k with
  | k_bill_of_lading_number =>
      Build_ShipmentData (bill_of_lading_number d) (container_number v) (consignee_name v)
        (consignee_address v) (date_of_export v) (line_items_count v)
        (total_gross_weight v) (total_invoice_amount v) (average_gross_weight v)
        (average_price v)
  | k_container_number =>
      Build_ShipmentData (bill_of_lading_number v) (container_number d) (consignee_name v)
        (consignee_address v) (date_of_export v) (line_items_count v)
        (total_gross_weight v) (total_invoice_amount v) (average_gross_weight v)
        (average_price v)
  | k_consignee_name =>
      Build_ShipmentData (bill_of_lading_number v) (container_number v) (consignee_name d)
        (consignee_address v) (date_of_export v) (line_items_count v)
        (total_gross_weight v) (total_invoice_amount v) (average_gross_weight v)
        (average_price v)
  | k_consignee_address =>
      Build_ShipmentData (bill_of_lading_number v) (container_number v) (consignee_name v)
        (consignee_address d) (date_of_export v) (line_items_count v)
        (total_gross_weight v) (total_invoice_amount v) (average_gross_weight v)
        (average_price v)
  | k_date_of_export =>
      Build_ShipmentData (bill_of_lading_number v) (container_number v) (consignee_name v)
        (consignee_address v) (date_of_export d) (line_items_count v)
        (total_gross_weight v) (total_invoice_amount v) (average_gross_weight v)
        (average_price v)
  | k_line_items_count =>
      Build_ShipmentData (bill_of_lading_number v) (container_number v) (consignee_name v)
        (consignee_address v) (date_of_export v) (line_items_count d)
        (total_gross_weight v) (total_invoice_amount v) (average_gross_weight v)
        (average_price v)
  | k_total_gross_weight =>
      Build_ShipmentData (bill_of_lading_number v) (container_number v) (consignee_name v)
        (consignee_address v) (date_of_export v) (line_items_count v)
        (total_gross_weight d) (total_invoice_amount v) (average_gross_weight v)
        (average_price v)
  | k_total_invoice_amount =>
      Build_ShipmentData (bill_of_lading_number v) (container_number v) (consignee_name v)
        (consignee_address v) (date_of_export v) (line_items_count v)
        (total_gross_weight v) (total_invoice_amount d) (average_gross_weight v)
        (average_price v)
  | k_average_gross_weight =>
      Build_ShipmentData (bill_of_lading_number v) (container_number v) (consignee_name v)
        (consignee_address v) (date_of_export v) (line_items_count v)
        (total_gross_weight v) (total_invoice_amount v) (average_gross_weight d)
        (average_price v)
  | k_average_price =>
      Build_ShipmentData (bill_of_lading_number v) (container_number v) (consignee_name v)
        (consignee_address v) (date_of_export v) (line_items_count v)
        (total_gross_weight v) (total_invoice_amount v) (average_gross_weight v)
        (average_price d)
  end.

(** [setValue(k, data[k])] *)
Definition setValue (k : Key) (d : ShipmentData) : M State unit :=
  v <- getValues ;;
  setter (ev_setValue (assign k d v))
         (fun s => Build_State (assign k d (values s)) (saveStatus s)).

Fixpoint forEach {A : Type} (l : list A) (f : A -> M State unit) : M State unit :=
  match l with
  | [] => ret tt
  | x :: r => f x ;; forEach r f
  end.

(** The body of [useEffect(..., [data, setValue])]. *)
Definition dataEffect (data : option ShipmentData) : M State unit :=
  match data with
  | Some d => forEach keys (fun k => setValue k d)
  | None => ret tt
  end.

(** **** The download *)

Record Anchor := { href : Url; download : string }.

(** The page around the form: the children of [document.body] (the
    anchors among them), the text behind each blob URL ([None] once
    revoked), and the files the browser has saved, by name and text. *)
Record Dom := {
  body : list Anchor;
  blobs : list (option string);
  saved : list (string * string)
}.

Definition anchor_eqb (a b : Anchor) : bool :=
  (href a =? href b)%nat && String.eqb (download a) (download b).

(** [currentData.bill_of_lading_number || 'export'] between the two
    fixed parts of the name. *)
Definition downloadName (currentData : ShipmentData) : string :=
  String.append "shipment_data_"
    (String.append
       match bill_of_lading_number currentData with
       | Some b => if String.eqb b "" then "export" else b
       | None => "export"
       end
       ".json").

Definition createBlobURL (text : string) : state Dom Url :=
  d <- get ;;
  let u := length (blobs d) in
  put (Build_Dom (body d) (blobs d ++ [Some text]) (saved d)) ;;
  ret u.

Fixpoint revokeBlob (u : Url) (l : list (option string)) : list (option string) :=
  match l, u with
  | [], _ => []
  | _ :: r, O => None :: r
  | x :: r, S u' => x :: revokeBlob u' r
  end.

Definition revokeBlobURL (u : Url) : state Dom unit :=
  d <- get ;; put (Build_Dom (body d) (revokeBlob u (blobs d)) (saved d)).

Definition appendChild (link : Anchor) : state Dom unit :=
  d <- get ;; put (Build_Dom (body d ++ [link]) (blobs d) (saved d)).

(** The child goes that was appended last among those equal to [link]. *)
Fixpoint removeFirst (link : Anchor) (l : list Anchor) : list Anchor :=
  match l with
  | [] => []
  | a :: r => if anchor_eqb a link then r else a :: removeFirst link r
  end.

Definition removeChild (link : Anchor) : state Dom unit :=
  d <- get ;;
  put (Build_Dom (rev (removeFirst link (rev (body d)))) (blobs d) (saved d)).

(** [link.click()] on an anchor with a [download] name: the blob behind
    its URL, if still there, is saved under that name. *)
Definition click (link : Anchor) : state Dom unit :=
  d <- get ;;
  match nth_error (blobs d) (href link) with
  | Some (Some text) =>
      put (Build_Dom (body d) (blobs d) (saved d ++ [(download link, text)]))
  | _ => ret tt
  end.

Section Download.
(** [JSON.stringify(currentData, null, 2)] *)
Variable stringify : ShipmentData -> string.

Definition handleDownload (currentData : ShipmentData) : state Dom unit :=
  let jsonString := stringify currentData in
  url <- createBlobURL jsonString ;;
  let link := {| href := url; download := downloadName currentData |} in
  appendChild link ;;
  click link ;;
  removeChild link ;;
  revokeBlobURL url.
End Download.

(** **** The form as the user drives it *)

Inductive UiEvent :=
| click_save
| save_settled (k : nat) (r : Settled unit)
| time_passes (dt : nat)
| user_edits (v : ShipmentData)
| record_changes (d : option ShipmentData).

Definition step (w : World State) (e : UiEvent) : option (World State) :=
  match e with
  | click_save =>
      if saveDisabled (st w) then None else Some (exec handleSaveToBackend w)
  | save_settled k r =>
      match nth_error (inflight w) k with
      | Some _ =>
          Some (exec (handleSaveToBackend_settled r) (with_inflight (removeNth k) w))
      | None => None
      end
  | time_passes dt => Some (advance dt w)
  | user_edits v =>
      Some (with_st (fun s => Build_State v (saveStatus s)) w)
  | record_changes d => Some (exec (dataEffect d) w)
  end.

Definition run : World State -> list UiEvent -> option (World State) := runEvents step.

(** [useForm()] starts with no value in any field, [useState('idle')]. *)
Definition blank : ShipmentData :=
  Build_ShipmentData None None None None None None None None None None.

Definition start (VITE_API_URL : option string) : World State :=
  main VITE_API_URL {| values := blank; saveStatus := idle |}.

Definition reachable (w : World State) : Prop :=
  exists (VITE_API_URL : option string) (es : list UiEvent),
    run (start VITE_API_URL) es = Some w.

(** A terminal status has its reset timer pending, and no timer is due
    later than 3000 ms from now. *)
Definition resetPending (w : World State) : Prop :=
  (saveStatus (st w) = success \/ saveStatus (st w) = error -> timers w <> []) /\
  Forall (fun t => due t <= now w + 3000) (timers w).

End FormPage.

(** *** A failed save, as the form is driven *)
Section FailedSave.
Import ExtractionForm.



(** A save fails; Retry Save is clicked 2000 ms later and the retry is
    still in flight when 1000 ms more have passed. *)
Definition retryStillInFlight : list FormPage.UiEvent :=
  [FormPage.click_save; FormPage.save_settled 0 (Rejected "Network Error");
   FormPage.time_passes 2000; FormPage.click_save; FormPage.time_passes 1000].
End FailedSave.

(** *** More sample inputs *)
Section SampleSheets.
Import DocViewer.

Definition sheet_a : File := {| name := "a.xlsx"; content := ["a"%byte] |}.
Definition sheet_b : File := {| name := "b.XLS"; content := ["b"%byte] |}.

(** A parser that gives one row with one cell, the text of the file. *)
Definition oneCell : list byte -> option Sheet :=
  fun c => match c with
           | "<"%byte :: _ => None          (* a web page saved as .xlsx *)
           | _ => Some [[string_of_list_byte c]]
           end.

Definition twoSheets : Props := {| files := [sheet_a; sheet_b]; activeFileIndex := 0 |}.

(** The second tab is chosen while the first file is still being read,
    and the read of the second file completes first. *)
Definition secondSheetShown : Mounted :=
  match run threePages oneCell (mount twoSheets emptyBrowser) [click_tab 1; reader_onload 1] with
  | Some m => m
  | None => mount twoSheets emptyBrowser
  end.

Definition staleRowsShown : Mounted :=
  match step threePages oneCell secondSheetShown (reader_onload 0) with
  | Some m => m
  | None => secondSheetShown
  end.

(** The same with a first file on which [read] throws. *)
Definition sheet_bad : File := {| name := "bad.xlsx"; content := ["<"%byte; "h"%byte] |}.

Definition badSheets : Props := {| files := [sheet_bad; sheet_b]; activeFileIndex := 0 |}.

Definition badReadPending : Mounted :=
  match run threePages oneCell (mount badSheets emptyBrowser) [click_tab 1; reader_onload 1] with
  | Some m => m
  | None => mount badSheets emptyBrowser
  end.

Definition badReadDone : Mounted :=
  match step threePages oneCell badReadPending (reader_onload 0) with
  | Some m => m
  | None => badReadPending
  end.
End SampleSheets.

(** * Properties *)

(** Reads fields off explicit records, leaving the arithmetic alone. *)
Ltac fields :=
  cbn [st baseURL log inflight objectURLs reads timers now fst snd
       DocViewer.world DocViewer.props DocViewer.cleanup
       DocViewer.numPages DocViewer.pageNumber DocViewer.fileUrl DocViewer.excelData
       DocViewer.files DocViewer.activeFileIndex].

(** ** Sequencing *)

Lemma runState_seq {S A B : Type} (a : M S A) (b : M S B) (w : World S) :
  runState (a ;; b) w = runState b (exec a w).
Proof. cbn. unfold exec. now destruct (runState a w). Qed.

(** ** Runs *)
Section RunFacts.
Context {C E : Type}.
Variable step : C -> E -> option C.

Lemma runEvents_snoc (es : list E) (e : E) (c : C) :
  runEvents step c (es ++ [e]) =
  match runEvents step c es with
  | Some c1 => step c1 e
  | None => None
  end.
Proof.
  revert c. induction es as [|x es IH]; intros c; cbn.
  - now destruct (step c e).
  - destruct (step c x); [apply IH | reflexivity].
Qed.

(** A property of the start that every step keeps holds after any run. *)
Lemma runEvents_invariant (P : C -> Prop) (c0 : C) :
  P c0 ->
  (forall c e c', (exists es, runEvents step c0 es = Some c) ->
                  P c -> step c e = Some c' -> P c') ->
  forall es c, runEvents step c0 es = Some c -> P c.
Proof.
  intros H0 Hstep es.
  induction es as [|e es IH] using rev_ind; intros c Hrun.
  - now injection Hrun as <-.
  - rewrite runEvents_snoc in Hrun.
    destruct (runEvents step c0 es) as [c1|] eqn:Hes; [|discriminate].
    eapply Hstep; [| apply IH; reflexivity | exact Hrun]. now exists es.
Qed.
End RunFacts.

(** ** Strings *)
Section StringFacts.

Lemma endsWith_iff (s suffix : string) :
  endsWith s suffix = true <-> exists p, s = String.append p suffix.
Proof.
  induction s as [|c t IH]; cbn [endsWith].
  - rewrite orb_false_r, String.eqb_eq. split.
    + intros <-. now exists "".
    + intros [p Hp]. destruct p; simpl in Hp; [easy | discriminate].
  - rewrite orb_true_iff, String.eqb_eq, IH. split.
    + intros [<- | [p ->]]; [now exists "" | now exists (String c p)].
    + intros [[|c' p] Hp]; simpl in Hp.
      * now left.
      * injection Hp as -> ->. right. now exists p.
Qed.

Lemma toLowerCase_append (p e : string) :
  toLowerCase (String.append p e) = String.append (toLowerCase p) (toLowerCase e).
Proof. induction p as [|c p IH]; simpl; [reflexivity | now rewrite IH]. Qed.

Lemma endsWith_toLowerCase (f : File) (ext : string) :
  endsWith (toLowerCase (name f)) ext = true <-> hasExtension ext f.
Proof.
  unfold hasExtension. generalize (name f) as n. intros n. split.
  - induction n as [|c t IH]; cbn [endsWith toLowerCase].
    + rewrite orb_false_r, String.eqb_eq. intros <-. now exists "", "".
    + rewrite orb_true_iff, String.eqb_eq. intros [H | H].
      * exists "", (String c t). now split.
      * destruct (IH H) as (stem & e & -> & He).
        exists (String c stem), e. now split.
  - intros (stem & e & -> & <-). rewrite toLowerCase_append.
    apply endsWith_iff. eauto.
Qed.

End StringFacts.

(** ** File intake and extraction (App.tsx, FileUpload.tsx) *)
Section Intake.
Import App.

Lemma hasPdf_iff (sel : list File) :
  hasPdf sel = true <-> exists f, In f sel /\ isPdfFile f.
Proof.
  unfold hasPdf, isPdfFile. rewrite existsb_exists.
  split; intros (f & Hin & Hf); exists f; split; auto;
    now apply endsWith_toLowerCase.
Qed.

Lemma hasExcel_iff (sel : list File) :
  hasExcel sel = true <-> exists f, In f sel /\ isSpreadsheetFile f.
Proof.
  unfold hasExcel, isSpreadsheetFile. rewrite existsb_exists.
  split; intros (f & Hin & Hf); exists f; split; auto.
  - apply orb_true_iff in Hf. rewrite !endsWith_toLowerCase in Hf. exact Hf.
  - apply orb_true_iff. now rewrite !endsWith_toLowerCase.
Qed.

Lemma extraction_url_absolute (base : option string) :
  Axios.buildFullPath base extractionURL = extractionURL.
Proof.
  destruct base as [b|]; [|reflexivity].
  unfold Axios.buildFullPath. now rewrite andb_false_r.
Qed.

Lemma handleFilesSelected_rejected (sel : list File) (w : World State) :
  hasPdf sel && hasExcel sel = false ->
  exec (handleFilesSelected sel) w =
  with_log (fun l => l ++ [ev_alert missingFilesMessage]) w.
Proof.
  intros H. unfold handleFilesSelected.
  rewrite <- negb_andb, H. reflexivity.
Qed.

Lemma handleFilesSelected_accepted (sel : list File) (w : World State) :
  hasPdf sel && hasExcel sel = true ->
  exec (handleFilesSelected sel) w =
  mkWorld {| files := sel; activeFileIndex := activeFileIndex (st w);
             data := None; isLoading := true |}
          (baseURL w)
          (log w ++ [ev_setFiles sel; ev_setIsLoading true; ev_setData None;
                     ev_axios_post extractionURL extractionURL
                                   (FormData (buildFormData sel))])
          (inflight w ++ [extractionRequest sel])
          (objectURLs w) (reads w) (timers w) (now w).
Proof.
  intros H. unfold handleFilesSelected.
  rewrite <- negb_andb, H. cbn.
  fold extractionURL. rewrite extraction_url_absolute.
  unfold extractionRequest. cbn. f_equal.
  rewrite <- ?app_assoc. reflexivity.
Qed.

Lemma settled_world (r : Settled ShipmentData) (w : World State) :
  exec (handleFilesSelected_settled r) w =
  mkWorld {| files := files (st w); activeFileIndex := activeFileIndex (st w);
             data := match r with
                     | Fulfilled d => Some d
                     | Rejected _ => data (st w)
                     end;
             isLoading := false |}
          (baseURL w)
          (log w ++ match r with
                    | Fulfilled d => [ev_setData (Some d)]
                    | Rejected _ => [ev_console_error "Extraction failed:";
                                     ev_alert extractionFailedMessage]
                    end ++ [ev_setIsLoading false])
          (inflight w) (objectURLs w) (reads w) (timers w) (now w).
Proof.
  destruct r; cbn; f_equal; rewrite <- ?app_assoc; reflexivity.
Qed.

End Intake.

Section IntakeClaims.
Import App.

(** C3. A selection with no file named [*.pdf], or with none named
    [*.xlsx] or [*.xls] (in any mix of cases), is rejected: the handler
    returns normally, its only effect is the alert with the blocking
    message; no request leaves, and the file set, the extracted record,
    the loading flag (and the rest of the state) stay as they were. The
    same holds when the selection arrives through a drop or a change
    event of the intake surface. *)
Theorem rejected_selection_changes_nothing
    (selectedFiles : list File) (w : World State) :
  ~ (exists f, In f selectedFiles /\ isPdfFile f) \/
  ~ (exists f, In f selectedFiles /\ isSpreadsheetFile f) ->
  let w' := exec (handleFilesSelected selectedFiles) w in
  runState (handleFilesSelected selectedFiles) w = (tt, w') /\
  log w' = log w ++ [ev_alert missingFilesMessage] /\
  inflight w' = inflight w /\
  files (st w') = files (st w) /\
  data (st w') = data (st w) /\
  isLoading (st w') = isLoading (st w) /\
  st w' = st w /\
  (forall e wd,
      e = Shell.drop selectedFiles \/ e = Shell.change (Some selectedFiles) ->
      Shell.step w e = Some wd ->
      st wd = st w /\ inflight wd = inflight w /\
      exists l, log wd = log w ++ l /\
                forall x, In x l -> x = ev_preventDefault \/ x = ev_alert missingFilesMessage).
Proof.
  intros Hlack w'.
  assert (Hrej : hasPdf selectedFiles && hasExcel selectedFiles = false).
  { apply andb_false_iff. rewrite <- !not_true_iff_false, hasPdf_iff, hasExcel_iff.
    exact Hlack. }
  pose proof (handleFilesSelected_rejected selectedFiles w Hrej) as Hw.
  fold w' in Hw.
  split.
  { unfold w', exec. now destruct (runState (handleFilesSelected selectedFiles) w) as [[] ?]. }
  rewrite Hw. repeat (split; [reflexivity|]).
  intros e wd He Hstep.
  destruct He as [-> | ->]; unfold Shell.step in Hstep;
    destruct (length (files (st w)) =? 0)%nat; try discriminate;
    injection Hstep as <-;
    unfold FileUpload.handleDrop, FileUpload.handleChange;
    destruct (isLoading (st w)); cbn [negb].
  - repeat (split; [reflexivity|]). exists [ev_preventDefault].
    split; [reflexivity|]. intros x [<- | []]. now left.
  - change (exec (emit ev_preventDefault ;; handleFilesSelected selectedFiles) w)
      with (exec (handleFilesSelected selectedFiles)
                 (with_log (fun l => l ++ [ev_preventDefault]) w)).
    rewrite handleFilesSelected_rejected by assumption.
    repeat (split; [reflexivity|]).
    exists [ev_preventDefault; ev_alert missingFilesMessage].
    split; [cbn; now rewrite <- app_assoc|].
    intros x [<- | [<- | []]]; auto.
  - repeat (split; [reflexivity|]). exists []. split; [now rewrite app_nil_r|].
    intros x [].
  - rewrite handleFilesSelected_rejected by assumption.
    repeat (split; [reflexivity|]). exists [ev_alert missingFilesMessage].
    split; [reflexivity|]. intros x [<- | []]. now right.
Qed.

Lemma rejected_selection_changes_nothing_witness :
  let sel := [{| name := "notes.txt"; content := [] |};
              {| name := "scan.PDF"; content := [] |}] in
  let w := Shell.start None in
  (~ (exists f, In f sel /\ isPdfFile f) \/
   ~ (exists f, In f sel /\ isSpreadsheetFile f)) /\
  log (exec (handleFilesSelected sel) w) = [ev_alert missingFilesMessage] /\
  inflight (exec (handleFilesSelected sel) w) = [].
Proof.
  intros sel w.
  assert (H : ~ (exists f, In f sel /\ isPdfFile f) \/
              ~ (exists f, In f sel /\ isSpreadsheetFile f)).
  { right. rewrite <- hasExcel_iff. vm_compute. discriminate. }
  split; [exact H|].
  destruct (@rejected_selection_changes_nothing sel w H) as (_ & Hlog & Hin & _).
  split; [exact Hlog | exact Hin].
Defined.

(** C5. A selection with at least one PDF and at least one spreadsheet is
    accepted: the handler replaces the file set, sets the loading flag
    to true, clears the record and only then sends the extraction
    request, which stays in flight. When the request settles, with a
    response or with a failure, the last thing the handler does is to
    set the loading flag to false. *)
Theorem accepted_selection_loading
    (selectedFiles : list File) (w : World State) :
  (exists f, In f selectedFiles /\ isPdfFile f) ->
  (exists f, In f selectedFiles /\ isSpreadsheetFile f) ->
  let w1 := exec (handleFilesSelected selectedFiles) w in
  log w1 = log w ++ [ev_setFiles selectedFiles; ev_setIsLoading true; ev_setData None;
                     ev_axios_post extractionURL extractionURL
                                   (FormData (buildFormData selectedFiles))] /\
  files (st w1) = selectedFiles /\
  isLoading (st w1) = true /\
  inflight w1 = inflight w ++ [extractionRequest selectedFiles] /\
  forall (r : Settled ShipmentData) (w2 : World State),
    let w3 := exec (handleFilesSelected_settled r) w2 in
    isLoading (st w3) = false /\
    exists l, log w3 = log w2 ++ l ++ [ev_setIsLoading false].
Proof.
  intros Hpdf Hxls w1.
  assert (Hacc : hasPdf selectedFiles && hasExcel selectedFiles = true).
  { apply andb_true_iff. now rewrite hasPdf_iff, hasExcel_iff. }
  unfold w1. rewrite (handleFilesSelected_accepted selectedFiles w Hacc).
  do 4 (split; [reflexivity|]).
  intros r w2. rewrite settled_world.
  split; [reflexivity|]. eexists. reflexivity.
Qed.

(** C9. While the loading flag is true the intake surface ignores what it
    is given: a drop only has its default action prevented, a change
    of the file picker does nothing at all. The callback is not called,
    so no extraction starts; the state, the requests in flight and the
    timers are what they were. This holds whatever the callback is, and
    in particular for the shell's [handleFilesSelected]. *)
Theorem intake_ignores_events_while_loading
    (S : Type) (onFilesSelected : list File -> M S unit) (isLoading : bool)
    (w : World S) (droppedFiles : list File) (target_files : option (list File)) :
  isLoading = true ->
  exec (FileUpload.handleDrop onFilesSelected isLoading droppedFiles) w
    = with_log (fun l => l ++ [ev_preventDefault]) w /\
  exec (FileUpload.handleChange onFilesSelected isLoading target_files) w = w /\
  inflight (exec (FileUpload.handleDrop onFilesSelected isLoading droppedFiles) w)
    = inflight w /\
  st (exec (FileUpload.handleDrop onFilesSelected isLoading droppedFiles) w) = st w.
Proof.
  intros ->. unfold FileUpload.handleDrop, FileUpload.handleChange.
  destruct target_files; repeat split; reflexivity.
Qed.

(** C10. The Reset / New Upload button is offered only while files are
    held and the loading flag is false; clicking it empties the file set
    and leaves the extracted record, the active index and the loading
    flag as they were. *)
Theorem reset_only_empties_file_set (w w' : World State) :
  Shell.step w Shell.click_reset = Some w' ->
  isLoading (st w) = false /\
  files (st w') = [] /\
  data (st w') = data (st w) /\
  activeFileIndex (st w') = activeFileIndex (st w) /\
  isLoading (st w') = isLoading (st w) /\
  inflight w' = inflight w /\
  log w' = log w ++ [ev_setFiles []].
Proof.
  unfold Shell.step.
  destruct (0 <? length (files (st w)))%nat; [|discriminate].
  destruct (isLoading (st w)) eqn:Hl; [discriminate|].
  cbn. intros [= <-]. rewrite Hl. repeat split; reflexivity.
Qed.

(** *** What holds in every state the user can reach *)

Lemma accepted_nonempty (sel : list File) :
  hasPdf sel && hasExcel sel = true -> sel <> [].
Proof. now destruct sel. Qed.

Lemma submit_preserves (sel : list File) (w : World State) :
  inflight w = [] -> isLoading (st w) = false ->
  quietOrLoading (exec (handleFilesSelected sel) w).
Proof.
  intros Hq Hl. destruct (hasPdf sel && hasExcel sel) eqn:Hacc.
  - rewrite handleFilesSelected_accepted by assumption. right.
    exists (extractionRequest sel). cbn. rewrite Hq.
    repeat split. now apply accepted_nonempty.
  - rewrite handleFilesSelected_rejected by assumption. now left.
Qed.

Lemma step_preserves (w w' : World State) (e : Shell.UiEvent) :
  quietOrLoading w -> Shell.step w e = Some w' -> quietOrLoading w'.
Proof.
  intros Hinv Hstep. destruct e as [fs | ofs | | i | k r]; unfold Shell.step in Hstep.
  - destruct (length (files (st w)) =? 0)%nat eqn:Hlen; [|discriminate].
    injection Hstep as <-. apply Nat.eqb_eq, length_zero_iff_nil in Hlen.
    destruct Hinv as [[Hq Hl] | (req & _ & _ & _ & Hne)]; [|contradiction].
    rewrite Hl. unfold FileUpload.handleDrop.
    change (exec (emit ev_preventDefault ;; handleFilesSelected fs) w)
      with (exec (handleFilesSelected fs)
                 (with_log (fun l => l ++ [ev_preventDefault]) w)).
    now apply submit_preserves.
  - destruct (length (files (st w)) =? 0)%nat eqn:Hlen; [|discriminate].
    injection Hstep as <-. apply Nat.eqb_eq, length_zero_iff_nil in Hlen.
    destruct Hinv as [[Hq Hl] | (req & _ & _ & _ & Hne)]; [|contradiction].
    rewrite Hl. destruct ofs as [fs|]; cbn [FileUpload.handleChange negb].
    + now apply submit_preserves.
    + now left.
  - destruct (0 <? length (files (st w)))%nat; [|discriminate].
    destruct (isLoading (st w)) eqn:Hl; [discriminate|].
    injection Hstep as <-.
    destruct Hinv as [[Hq _] | (req & _ & Hl' & _)]; [|congruence].
    left. cbn. now rewrite Hl.
  - destruct (_ && _); [|discriminate]. injection Hstep as <-.
    exact Hinv.
  - destruct (nth_error (inflight w) k) as [req|] eqn:Hk; [|discriminate].
    injection Hstep as <-. rewrite settled_world. left. cbn.
    destruct Hinv as [[Hq _] | (req' & Hq & _)]; rewrite Hq in *.
    + now destruct k.
    + destruct k as [|[|k]]; [now split | discriminate | discriminate].
Qed.

Lemma reachable_quietOrLoading (w : World State) :
  Shell.reachable w -> quietOrLoading w.
Proof.
  intros (env & es & Hrun). revert es w Hrun.
  apply runEvents_invariant; [now left|].
  intros c e c' _. apply step_preserves.
Qed.

(** C4. An accepted submission sets the extracted record to null before
    the extraction request is sent. When a request in flight settles in
    a state the user can reach, the record is still null; a failure
    leaves it as it is (null), and a response replaces it by the
    response body. *)
Theorem record_cleared_then_replaced
    (selectedFiles : list File) (w w2 w3 : World State)
    (k : nat) (r : Settled ShipmentData) :
  (exists f, In f selectedFiles /\ isPdfFile f) ->
  (exists f, In f selectedFiles /\ isSpreadsheetFile f) ->
  Shell.reachable w2 ->
  Shell.step w2 (Shell.settle k r) = Some w3 ->
  let w1 := exec (handleFilesSelected selectedFiles) w in
  data (st w1) = None /\
  (exists before after,
      log w1 = log w ++ before ++ [ev_setData None] ++ after /\
      In (ev_axios_post extractionURL extractionURL
            (FormData (buildFormData selectedFiles))) after /\
      forall requested full payload, ~ In (ev_axios_post requested full payload) before) /\
  data (st w2) = None /\
  data (st w3) = match r with
                 | Fulfilled response_data => Some response_data
                 | Rejected _ => data (st w2)
                 end /\
  (forall reason v, data (st (exec (handleFilesSelected_settled (Rejected reason)) v))
                    = data (st v)) /\
  (forall body v, data (st (exec (handleFilesSelected_settled (Fulfilled body)) v))
                  = Some body).
Proof.
  intros Hpdf Hxls Hreach Hstep w1.
  assert (Hacc : hasPdf selectedFiles && hasExcel selectedFiles = true).
  { apply andb_true_iff. now rewrite hasPdf_iff, hasExcel_iff. }
  unfold w1. rewrite (handleFilesSelected_accepted selectedFiles w Hacc).
  split; [reflexivity|]. split.
  { exists [ev_setFiles selectedFiles; ev_setIsLoading true]. eexists.
    split; [reflexivity|]. split; [now left|].
    intros ? ? ? [H | [H | []]]; discriminate. }
  unfold Shell.step in Hstep.
  destruct (nth_error (inflight w2) k) as [req|] eqn:Hk; [|discriminate].
  injection Hstep as <-.
  assert (Hnull : data (st w2) = None).
  { destruct (reachable_quietOrLoading Hreach) as [[Hq _] | (? & _ & _ & Hd & _)];
      [|exact Hd]. rewrite Hq in Hk. now destruct k. }
  split; [exact Hnull|]. rewrite settled_world. cbn.
  split; [now destruct r|].
  split; intros; rewrite ?settled_world; reflexivity.
Qed.

(** *** The active index *)

Lemma reachable_step (w w' : World State) (e : Shell.UiEvent) :
  Shell.reachable w -> Shell.step w e = Some w' -> Shell.reachable w'.
Proof.
  intros (env & es & Hrun) Hstep. exists env, (es ++ [e]).
  unfold Shell.run in *. now rewrite runEvents_snoc, Hrun.
Qed.

Lemma reachable_induction (P : World State -> Prop) :
  (forall env, P (Shell.start env)) ->
  (forall w e w', Shell.reachable w -> P w -> Shell.step w e = Some w' -> P w') ->
  forall w, Shell.reachable w -> P w.
Proof.
  intros Hstart Hstep w (env & es & Hrun). revert es w Hrun.
  apply runEvents_invariant; [apply Hstart|].
  intros c e c' (es & Hes). apply Hstep. now exists env, es.
Qed.

Lemma tabsFrom_index (t : DocViewer.Tab) (fs : list File) (from active : nat) :
  In t (DocViewer.tabsFrom from active fs) ->
  from <= DocViewer.tab_index t < from + length fs.
Proof.
  revert from. induction fs as [|f fs IH]; intros from; cbn; [easy|].
  intros [<- | Hin]; cbn; [lia|]. apply IH in Hin. lia.
Qed.

Lemma shownTabs_index (s : State) (index : nat) :
  existsb (fun t => (DocViewer.tab_index t =? index)%nat) (Shell.shownTabs s) = true ->
  index < length (files s).
Proof.
  rewrite existsb_exists. intros (t & Hin & Heq). apply Nat.eqb_eq in Heq. subst.
  unfold Shell.shownTabs, DocViewer.render in Hin. cbn in Hin.
  destruct (nth_error (files s) (activeFileIndex s)); [|easy].
  apply tabsFrom_index in Hin. lia.
Qed.

(** What a step does to the active index: a tab click sets it to the
    index of a shown tab, every other event keeps it. *)
Lemma step_index (w w' : World State) (e : Shell.UiEvent) :
  Shell.step w e = Some w' ->
  match e with
  | Shell.click_tab index =>
      activeFileIndex (st w') = index /\ index < length (files (st w')) /\
      files (st w') = files (st w)
  | _ => activeFileIndex (st w') = activeFileIndex (st w)
  end.
Proof.
  intros Hstep. destruct e as [fs | ofs | | i | k r]; unfold Shell.step in Hstep.
  - destruct (_ =? _)%nat; [|discriminate]. injection Hstep as <-.
    unfold FileUpload.handleDrop. destruct (isLoading (st w)); [reflexivity|].
    change (exec (emit ev_preventDefault ;; handleFilesSelected fs) w)
      with (exec (handleFilesSelected fs)
                 (with_log (fun l => l ++ [ev_preventDefault]) w)).
    destruct (hasPdf fs && hasExcel fs) eqn:Hacc;
      [rewrite handleFilesSelected_accepted | rewrite handleFilesSelected_rejected];
      auto.
  - destruct (_ =? _)%nat; [|discriminate]. injection Hstep as <-.
    destruct ofs as [fs|]; [|reflexivity]. cbn [FileUpload.handleChange].
    destruct (isLoading (st w)); [reflexivity|]. cbn [negb].
    destruct (hasPdf fs && hasExcel fs) eqn:Hacc;
      [rewrite handleFilesSelected_accepted | rewrite handleFilesSelected_rejected];
      auto.
  - destruct (_ && _); [|discriminate]. now injection Hstep as <-.
  - destruct (0 <? _)%nat; [|discriminate]. cbn [andb] in Hstep.
    destruct (existsb _ _) eqn:Htab; [|discriminate]. injection Hstep as <-.
    apply shownTabs_index in Htab. cbn. auto.
  - destruct (nth_error _ _); [|discriminate]. injection Hstep as <-.
    now rewrite settled_world.
Qed.

(** What a step needs of, or does to, the file set. *)
Lemma step_files (w w' : World State) (e : Shell.UiEvent) :
  Shell.step w e = Some w' ->
  match e with
  | Shell.drop _ | Shell.change _ => files (st w) = []
  | Shell.click_reset => files (st w') = []
  | Shell.click_tab _ | Shell.settle _ _ => files (st w') = files (st w)
  end.
Proof.
  intros Hstep. destruct e as [fs | ofs | | i | k r]; unfold Shell.step in Hstep.
  - destruct (length (files (st w)) =? 0)%nat eqn:Hlen; [|discriminate].
    now apply Nat.eqb_eq, length_zero_iff_nil in Hlen.
  - destruct (length (files (st w)) =? 0)%nat eqn:Hlen; [|discriminate].
    now apply Nat.eqb_eq, length_zero_iff_nil in Hlen.
  - destruct (_ && _); [|discriminate]. now injection Hstep as <-.
  - destruct (_ && _); [|discriminate]. now injection Hstep as <-.
  - destruct (nth_error _ _); [|discriminate]. injection Hstep as <-.
    now rewrite settled_world.
Qed.

Lemma run_index (VITE_API_URL : option string) (es : list Shell.UiEvent) (w : World State) :
  Shell.run (Shell.start VITE_API_URL) es = Some w ->
  indexFromLastTabClick VITE_API_URL es w.
Proof.
  revert w. induction es as [|e es IH] using rev_ind; intros w Hrun.
  - injection Hrun as <-. left. split; [intros index []|reflexivity].
  - pose proof Hrun as Hrun'. unfold Shell.run in Hrun'. rewrite runEvents_snoc in Hrun'.
    destruct (runEvents Shell.step (Shell.start VITE_API_URL) es) as [w0|] eqn:Hes;
      [|discriminate].
    pose proof (step_index w0 e Hrun') as Hidx.
    pose proof (step_files w0 e Hrun') as Hfiles.
    assert (Htab : (exists index, e = Shell.click_tab index) \/
                   forall index, e <> Shell.click_tab index).
    { destruct e; try (right; discriminate). left. eauto. }
    destruct Htab as [(index & ->) | Hnot].
    + right. exists es, index, [], w. destruct Hidx as (Hi & Hlt & _).
      split; [reflexivity|]. split; [intros j []|]. split; [exact Hrun|].
      split; [exact Hi|]. split; [exact Hlt | reflexivity].
    + assert (Hkeep : activeFileIndex (st w) = activeFileIndex (st w0)).
      { destruct e; try exact Hidx. now destruct (Hnot index). }
      destruct (IH w0 Hes) as [[Hno H0] | (es1 & index & es2 & w1 & -> & Hno & Hrun1 & Hi & Hlt & Hsame)].
      * left. split; [|congruence].
        intros j Hin. apply in_app_or in Hin as [Hin | [Heq | []]].
        -- now apply (Hno j).
        -- now apply (Hnot j).
      * right. exists es1, index, (es2 ++ [e]), w1.
        split; [now rewrite <- app_assoc|]. split.
        { intros j Hin. apply in_app_or in Hin as [Hin | [Heq | []]].
          - now apply (Hno j).
          - now apply (Hnot j). }
        split; [exact Hrun1|]. split; [congruence|]. split; [exact Hlt|].
        intros Hreset.
        assert (Hsame' : files (st w0) = files (st w1)).
        { apply Hsame. intros Hin. apply Hreset. apply in_or_app. now left. }
        destruct e as [fs | ofs | | i | k r].
        -- rewrite Hfiles in Hsame'. rewrite <- Hsame' in Hlt. cbn in Hlt. lia.
        -- rewrite Hfiles in Hsame'. rewrite <- Hsame' in Hlt. cbn in Hlt. lia.
        -- exfalso. apply Hreset. apply in_or_app. right. now left.
        -- now destruct (Hnot i).
        -- congruence.
Qed.

(** C1, as the code has it. A change of the file set (an accepted upload,
    or Reset) keeps the active index at its value: it is neither checked
    against the new set nor put back to 0. Only a click on a tab of the
    viewer changes it, to the index of that tab, which is valid for the
    files shown. So after every run of events: if no tab was clicked the
    index is 0; otherwise it is the index the last tab click chose,
    valid for the file set shown at that click, and that set is still
    the current one unless a Reset came after the click. In particular
    the index is a valid index into the current set, or 0, after every
    run without Reset. While the index is out of range for the current
    set the viewer shows no document. *)
Theorem active_index_set_only_by_tab_click
    (VITE_API_URL : option string) (es : list Shell.UiEvent) (w : World State)
    (v : DocViewer.State) :
  Shell.run (Shell.start VITE_API_URL) es = Some w ->
  indexFromLastTabClick VITE_API_URL es w /\
  (~ In Shell.click_reset es -> Shell.indexValidOrZero (st w)) /\
  (forall e w',
      Shell.step w e = Some w' ->
      match e with
      | Shell.click_tab index =>
          activeFileIndex (st w') = index /\ index < length (files (st w')) /\
          files (st w') = files (st w)
      | _ => activeFileIndex (st w') = activeFileIndex (st w)
      end) /\
  (length (files (st w)) <= activeFileIndex (st w) ->
   DocViewer.render (Shell.viewerProps (st w)) v = DocViewer.NoDocumentSelected).
Proof.
  intros Hrun. pose proof (run_index _ _ Hrun) as Hidx.
  split; [exact Hidx|]. split; [|split].
  - intros Hreset. unfold Shell.indexValidOrZero.
    destruct Hidx as [[_ H0] | (es1 & index & es2 & w1 & -> & _ & _ & Hi & Hlt & Hsame)].
    + now right.
    + left. rewrite Hi, Hsame; [exact Hlt|].
      intros Hin. apply Hreset. apply in_or_app. right. now right.
  - intros e w'. apply step_index.
  - intros Hout. unfold DocViewer.render. cbn.
    apply nth_error_None in Hout. now rewrite Hout.
Qed.

(** *** Concrete runs *)

Lemma sample_has_pdf : exists f, In f [bol_pdf; packing_xlsx] /\ isPdfFile f.
Proof. apply hasPdf_iff. reflexivity. Defined.

Lemma sample_has_spreadsheet : exists f, In f [bol_pdf; packing_xlsx] /\ isSpreadsheetFile f.
Proof. apply hasExcel_iff. reflexivity. Defined.

(** C1 as stated fails: after the Reset the file set is empty and the
    index is still 2, and after the next upload of two files it is
    still 2, which is no index into the new set and is not 0. *)
Lemma active_index_not_reset_on_file_set_change :
  ~ (forall w, Shell.reachable w -> Shell.indexValidOrZero (st w)).
Proof.
  intros H.
  destruct (Shell.run (Shell.start None) reuploadTwoFiles) as [w|] eqn:Hrun;
    [|discriminate].
  assert (Hreach : Shell.reachable w) by (now exists None, reuploadTwoFiles).
  specialize (H w Hreach). vm_compute in Hrun. injection Hrun as <-.
  destruct H as [H | H]; cbn in H; [lia | discriminate].
Qed.

Example reset_keeps_index :
  option_map (fun w => (files (st w), activeFileIndex (st w)))
             (Shell.run (Shell.start None) resetAfterThirdTab) = Some ([], 2).
Proof. reflexivity. Qed.

Example reupload_keeps_index :
  option_map (fun w => (map name (files (st w)), activeFileIndex (st w), isLoading (st w)))
             (Shell.run (Shell.start None) reuploadTwoFiles)
  = Some (["BOL-123.PDF"; "packing_list.xlsx"], 2, true).
Proof. reflexivity. Qed.

Lemma active_index_set_only_by_tab_click_witness :
  let es := [Shell.change (Some [bol_pdf; packing_xlsx; notes_txt]); Shell.click_tab 2] in
  let w := exec (setActiveFileIndex 2)
             (exec (handleFilesSelected [bol_pdf; packing_xlsx; notes_txt])
                   (Shell.start None)) in
  Shell.run (Shell.start None) es = Some w /\
  ~ In Shell.click_reset es /\
  Shell.indexValidOrZero (st w) /\
  indexFromLastTabClick None es w /\
  Shell.step w Shell.click_reset = None /\
  Shell.step w (Shell.click_tab 1) = Some (exec (setActiveFileIndex 1) w) /\
  activeFileIndex (st (exec (setActiveFileIndex 1) w)) = 1.
Proof.
  intros es w.
  assert (Hrun : Shell.run (Shell.start None) es = Some w) by reflexivity.
  assert (Hreset : ~ In Shell.click_reset es)
    by (intros [H | [H | []]]; discriminate).
  assert (Hstep : Shell.step w (Shell.click_tab 1) = Some (exec (setActiveFileIndex 1) w))
    by reflexivity.
  destruct (@active_index_set_only_by_tab_click None es w DocViewer.initial Hrun)
    as (Hidx & Hvalid & Hsteps & _).
  split; [exact Hrun|]. split; [exact Hreset|]. split; [exact (Hvalid Hreset)|].
  split; [exact Hidx|]. split; [reflexivity|]. split; [exact Hstep|].
  exact (proj1 (Hsteps _ _ Hstep)).
Defined.

Lemma accepted_selection_loading_witness :
  let w1 := exec (handleFilesSelected [bol_pdf; packing_xlsx]) (Shell.start None) in
  (exists f, In f [bol_pdf; packing_xlsx] /\ isPdfFile f) /\
  (exists f, In f [bol_pdf; packing_xlsx] /\ isSpreadsheetFile f) /\
  isLoading (st w1) = true /\
  isLoading (st (exec (handleFilesSelected_settled (Rejected "Network Error")) w1)) = false /\
  isLoading (st (exec (handleFilesSelected_settled (Fulfilled sampleRecord)) w1)) = false.
Proof.
  intros w1.
  destruct (@accepted_selection_loading [bol_pdf; packing_xlsx] (Shell.start None)
              sample_has_pdf sample_has_spreadsheet) as (_ & _ & Hl & _ & Hsettled).
  split; [exact sample_has_pdf|]. split; [exact sample_has_spreadsheet|].
  split; [exact Hl|].
  split; [exact (proj1 (Hsettled (Rejected "Network Error") w1))
         | exact (proj1 (Hsettled (Fulfilled sampleRecord) w1))].
Defined.

Lemma intake_ignores_events_while_loading_witness :
  let w := exec (handleFilesSelected [bol_pdf; packing_xlsx]) (Shell.start None) in
  isLoading (st w) = true /\
  exec (FileUpload.handleChange handleFilesSelected (isLoading (st w))
          (Some [bol_pdf; packing_xlsx])) w = w /\
  inflight (exec (FileUpload.handleDrop handleFilesSelected (isLoading (st w))
                    [bol_pdf; packing_xlsx]) w) = inflight w.
Proof.
  intros w.
  assert (Hl : isLoading (st w) = true) by reflexivity.
  destruct (@intake_ignores_events_while_loading State handleFilesSelected
              (isLoading (st w)) w [bol_pdf; packing_xlsx]
              (Some [bol_pdf; packing_xlsx]) Hl)
    as (_ & Hc & Hi & _).
  repeat split; assumption.
Defined.

Lemma reset_only_empties_file_set_witness :
  let w := exec (handleFilesSelected_settled (Fulfilled sampleRecord))
             (exec (handleFilesSelected [bol_pdf; packing_xlsx]) (Shell.start None)) in
  Shell.step w Shell.click_reset = Some (exec handleReset w) /\
  files (st (exec handleReset w)) = [] /\
  data (st (exec handleReset w)) = Some sampleRecord.
Proof.
  intros w.
  assert (Hstep : Shell.step w Shell.click_reset = Some (exec handleReset w)) by reflexivity.
  destruct (@reset_only_empties_file_set w (exec handleReset w) Hstep) as (_ & Hf & Hd & _).
  split; [exact Hstep|]. split; [exact Hf|]. rewrite Hd. reflexivity.
Defined.

Lemma record_cleared_then_replaced_witness :
  let sel := [bol_pdf; packing_xlsx] in
  let w := exec (handleFilesSelected_settled (Fulfilled sampleRecord))
             (exec (handleFilesSelected sel) (Shell.start None)) in
  let w2 := exec (handleFilesSelected sel) (Shell.start None) in
  let w3 := exec (handleFilesSelected_settled (Rejected "Network Error"))
                 (with_inflight (removeNth 0) w2) in
  (exists f, In f sel /\ isPdfFile f) /\
  (exists f, In f sel /\ isSpreadsheetFile f) /\
  Shell.reachable w2 /\
  Shell.step w2 (Shell.settle 0 (Rejected "Network Error")) = Some w3 /\
  data (st w) = Some sampleRecord /\
  data (st (exec (handleFilesSelected sel) w)) = None /\
  data (st w3) = None.
Proof.
  intros sel w w2 w3.
  assert (Hreach : Shell.reachable w2).
  { exists None, [Shell.change (Some sel)]. reflexivity. }
  assert (Hstep : Shell.step w2 (Shell.settle 0 (Rejected "Network Error")) = Some w3)
    by reflexivity.
  destruct (@record_cleared_then_replaced sel w w2 w3 0 (Rejected "Network Error")
              sample_has_pdf sample_has_spreadsheet Hreach Hstep) as (Hnull & _ & H2 & H3 & _).
  split; [exact sample_has_pdf|]. split; [exact sample_has_spreadsheet|].
  split; [exact Hreach|]. split; [exact Hstep|].
  split; [reflexivity|]. split; [exact Hnull|].
  rewrite H3. exact H2.
Defined.

End IntakeClaims.

(** ** Document preview (DocViewer.tsx) *)
Section Preview.
Import DocViewer.

Variable pdf_numPages : list byte -> Z.
Variable sheet_to_json : list byte -> option Sheet.

Lemma activeFileEffect_run (f : File) (w : World State) :
  runState (activeFileEffect (Some f)) w =
  (if isPdfName f then Some (length (objectURLs w)) else None,
   mkWorld {| numPages := 0; pageNumber := 1;
              fileUrl := if isPdfName f then Some (length (objectURLs w)) else None;
              excelData := None |}
           (baseURL w)
           (log w ++ resetEvents ++ loadEvents f (length (objectURLs w)))
           (inflight w)
           (if isPdfName f then objectURLs w ++ [Some f] else objectURLs w)
           (if isPdfName f then reads w
            else if isExcelName f then reads w ++ [f] else reads w)
           (timers w) (now w)).
Proof.
  unfold activeFileEffect, loadEvents, isPdfName, isExcelName.
  destruct (endsWith (toLowerCase (name f)) ".pdf");
    [|destruct (endsWith (toLowerCase (name f)) ".xlsx" ||
                endsWith (toLowerCase (name f)) ".xls")];
    cbn; (f_equal; [idtac]); (f_equal; [idtac]);
    rewrite <- ?app_assoc; reflexivity.
Qed.

Lemma shown_tab_has_file (p : Props) (s : State) (tabs : list Tab) (c : Content)
    (index : nat) :
  render p s = Viewer tabs c ->
  existsb (fun t => (tab_index t =? index)%nat) tabs = true ->
  exists f, nth_error (files p) index = Some f.
Proof.
  intros Hr Htab. unfold render in Hr.
  destruct (nth_error (files p) (activeFileIndex p)); [|discriminate].
  injection Hr as <- _. apply existsb_exists in Htab as (t & Hin & Heq).
  apply Nat.eqb_eq in Heq. subst. apply tabsFrom_index in Hin.
  destruct (nth_error (files p) (tab_index t)) as [g|] eqn:Hf; [now exists g|].
  apply nth_error_None in Hf. lia.
Qed.

(** A click on the tab of another file: the cleanup of the last effect
    runs, then the effect for the file of that tab. *)
Lemma tab_click_activates (m m' : Mounted) (index : nat) :
  step pdf_numPages sheet_to_json m (click_tab index) = Some m' ->
  index <> activeFileIndex (props m) ->
  exists f,
    nth_error (files (props m)) index = Some f /\
    props m' = {| files := files (props m); activeFileIndex := index |} /\
    world m' = exec (activeFileEffect (Some f))
                    (exec (runCleanup (cleanup m)) (world m)) /\
    cleanup m' = fst (runState (activeFileEffect (Some f))
                        (exec (runCleanup (cleanup m)) (world m))).
Proof.
  intros Hstep Hne. unfold step in Hstep; cbv zeta in Hstep.
  destruct (render (props m) (st (world m))) as [|tabs c] eqn:Hr; [discriminate|].
  assert (Hstep' : (if existsb (fun t => (tab_index t =? index)%nat) tabs
                    then if (index =? activeFileIndex (props m))%nat then Some m
                         else Some (runEffect {| files := files (props m);
                                                 activeFileIndex := index |}
                                              (cleanup m) (world m))
                    else None) = Some m')
    by (destruct c as [? ? [?|] | |]; exact Hstep).
  clear Hstep. rename Hstep' into Hstep.
  destruct (existsb _ tabs) eqn:Htab; [|discriminate].
  apply Nat.eqb_neq in Hne. rewrite Hne in Hstep. injection Hstep as <-.
  destruct (shown_tab_has_file _ _ _ Hr Htab) as (f & Hf).
  exists f. split; [exact Hf|].
  unfold runEffect, activeFile. cbn [files activeFileIndex]. rewrite Hf.
  rewrite runState_seq. unfold exec at 1 3.
  destruct (runState (activeFileEffect (Some f)) _). repeat split.
Qed.

(** C7. When the active file changes, the effect first resets the page
    count to 0, the page number to 1, the object URL to null and the
    parsed rows to null, in this order, and only then looks at the
    extension of the new file and starts loading it: a PDF gets a fresh
    object URL, a spreadsheet a read of its bytes, anything else
    nothing. A click on the tab of another file runs the effect for
    that file, after the cleanup of the previous one; whatever the
    render state was, the state after the effect is the one the effect
    gives from the initial state. *)
Theorem activation_resets_render_state (m m' : Mounted) (index : nat) :
  step pdf_numPages sheet_to_json m (click_tab index) = Some m' ->
  index <> activeFileIndex (props m) ->
  exists f,
    nth_error (files (props m)) index = Some f /\
    activeFile (props m') = Some f /\
    let w0 := exec (runCleanup (cleanup m)) (world m) in
    let w' := world m' in
    w' = exec (activeFileEffect (Some f)) w0 /\
    log w' = log w0 ++ resetEvents ++ loadEvents f (length (objectURLs w0)) /\
    numPages (st w') = 0%Z /\
    pageNumber (st w') = 1%Z /\
    excelData (st w') = None /\
    fileUrl (st w') = (if isPdfName f then Some (length (objectURLs w0)) else None) /\
    forall (g : File) (w : World State),
      exists loading,
        log (exec (activeFileEffect (Some g)) w) = log w ++ resetEvents ++ loading /\
        st (exec (activeFileEffect (Some g)) w) =
        st (exec (activeFileEffect (Some g)) (with_st (fun _ => initial) w)).
Proof.
  intros Hstep Hne.
  destruct (tab_click_activates _ Hstep Hne) as (f & Hf & Hp & Hw & _).
  exists f. split; [exact Hf|]. split.
  { unfold activeFile. now rewrite Hp. }
  cbn zeta. rewrite Hw. split; [reflexivity|].
  unfold exec. rewrite activeFileEffect_run.
  cbn [snd st log numPages pageNumber excelData fileUrl].
  do 5 (split; [reflexivity|]).
  intros g w. rewrite !activeFileEffect_run.
  cbn [snd st log]. eexists. split; reflexivity.
Qed.

(** *** Page navigation *)

Lemma effect_establishes (p : Props) (c : option Url) (w : World State) :
  (activeFile p = None -> pageInBounds (st w) /\ numPages (st w) = 0%Z) ->
  previewInvariant pdf_numPages (runEffect p c w).
Proof.
  intros Hnone. unfold runEffect.
  rewrite runState_seq. set (w0 := exec (runCleanup c) w).
  destruct (activeFile p) as [f|].
  - rewrite activeFileEffect_run.
    unfold previewInvariant, pageInBounds, countOfShownDocument. fields.
    split; [split; [lia | now left] | now left].
  - destruct (Hnone eq_refl) as [Hb H0]. cbn.
    assert (Hst : st w0 = st w) by (unfold w0; destruct c; reflexivity).
    unfold previewInvariant, countOfShownDocument. fields.
    split; [now rewrite Hst | left; now rewrite Hst].
Qed.

Lemma mount_invariant (p : Props) (browser : World unit) :
  previewInvariant pdf_numPages (mount p browser).
Proof.
  apply effect_establishes. intros _. unfold pageInBounds, initial. fields.
  split; [split; [lia | now left] | reflexivity].
Qed.

Lemma render_pdf (p : Props) (s : State) (tabs : list Tab) (u : Url) (pg : Z)
    (nav : option NavControls) :
  render p s = Viewer tabs (PdfDocument u pg nav) ->
  fileUrl s = Some u /\ pg = pageNumber s /\
  nav = if (1 <? numPages s)%Z then
          Some {| back_disabled := (pageNumber s <=? 1)%Z;
                  shown_page := pageNumber s;
                  shown_total := numPages s;
                  forward_disabled := (numPages s <=? pageNumber s)%Z |}
        else None.
Proof.
  unfold render. intros Hr. destruct (nth_error _ _) as [f|]; [|discriminate].
  destruct (endsWith (toLowerCase (name f)) ".pdf"), (fileUrl s) as [url|];
    try (destruct (_ || _); [destruct (excelData s)|]; discriminate).
  injection Hr as _ -> <- <-. auto.
Qed.

Lemma nav_rendered (p : Props) (s : State) (tabs : list Tab) (u : Url) (pg : Z)
    (nav : NavControls) :
  render p s = Viewer tabs (PdfDocument u pg (Some nav)) ->
  (1 < numPages s)%Z /\
  nav = {| back_disabled := (pageNumber s <=? 1)%Z;
           shown_page := pageNumber s;
           shown_total := numPages s;
           forward_disabled := (numPages s <=? pageNumber s)%Z |}.
Proof.
  intros Hr. apply render_pdf in Hr as (_ & _ & Hnav).
  destruct (1 <? numPages s)%Z eqn:Hn; [|discriminate].
  injection Hnav as ->. split; [now apply Z.ltb_lt | reflexivity].
Qed.

Lemma back_step (m m' : Mounted) :
  step pdf_numPages sheet_to_json m click_back = Some m' ->
  (1 < pageNumber (st (world m)))%Z /\ (1 < numPages (st (world m)))%Z /\
  world m' = exec previousPage (world m).
Proof.
  unfold step; cbv zeta. intros Hstep.
  destruct (render _ _) as [|tabs [u pg [nav|] | |]] eqn:Hr; try discriminate.
  apply nav_rendered in Hr as [Hn ->]. cbn [back_disabled forward_disabled] in Hstep.
  destruct (pageNumber (st (world m)) <=? 1)%Z eqn:Hd; [discriminate|].
  injection Hstep as <-. apply Z.leb_gt in Hd. auto.
Qed.

Lemma forward_step (m m' : Mounted) :
  step pdf_numPages sheet_to_json m click_forward = Some m' ->
  (pageNumber (st (world m)) < numPages (st (world m)))%Z /\
  (1 < numPages (st (world m)))%Z /\
  world m' = exec nextPage (world m).
Proof.
  unfold step; cbv zeta. intros Hstep.
  destruct (render _ _) as [|tabs [u pg [nav|] | |]] eqn:Hr; try discriminate.
  apply nav_rendered in Hr as [Hn ->]. cbn [back_disabled forward_disabled] in Hstep.
  destruct (numPages (st (world m)) <=? pageNumber (st (world m)))%Z eqn:Hd;
    [discriminate|].
  injection Hstep as <-. apply Z.leb_gt in Hd. auto.
Qed.

Lemma loaded_step (m m' : Mounted) :
  step pdf_numPages sheet_to_json m document_loaded = Some m' ->
  exists u f,
    fileUrl (st (world m)) = Some u /\
    nth_error (objectURLs (world m)) u = Some (Some f) /\
    world m' = exec (onDocumentLoadSuccess (pdf_numPages (content f))) (world m).
Proof.
  unfold step; cbv zeta. intros Hstep.
  destruct (render _ _) as [|tabs [u pg nav | |]] eqn:Hr; try discriminate.
  apply render_pdf in Hr as (Hr & _).
  assert (Hstep' : match nth_error (objectURLs (world m)) u with
                   | Some (Some f) =>
                       Some {| props := props m; cleanup := cleanup m;
                               world := exec (onDocumentLoadSuccess
                                                (pdf_numPages (content f))) (world m) |}
                   | _ => None
                   end = Some m') by (destruct nav; exact Hstep).
  destruct (nth_error (objectURLs (world m)) u) as [[f|]|] eqn:Hu; try discriminate.
  injection Hstep' as <-. exists u, f. auto.
Qed.

Lemma reader_step (m m' : Mounted) (k : nat) :
  step pdf_numPages sheet_to_json m (reader_onload k) = Some m' ->
  exists f,
    nth_error (reads (world m)) k = Some f /\
    world m' = exec (onload (sheet_to_json (content f)))
                    (with_reads (removeNth k) (world m)).
Proof.
  unfold step; cbv zeta. intros Hstep.
  destruct (nth_error (reads (world m)) k) as [f|];
    [exists f | destruct (render _ _) as [|? [? ? [?|]| |]]; discriminate].
  destruct (render _ _) as [|? [? ? [?|]| |]]; injection Hstep as <-; auto.
Qed.

Lemma step_invariant (m m' : Mounted) (e : UiEvent) :
  previewInvariant pdf_numPages m -> step pdf_numPages sheet_to_json m e = Some m' ->
  previewInvariant pdf_numPages m'.
Proof.
  intros [Hb Hc] Hstep. destruct e as [index | | | | k].
  - destruct (Nat.eq_dec index (activeFileIndex (props m))) as [-> | Hne].
    + unfold step in Hstep; cbv zeta in Hstep.
      destruct (render _ _) as [|tabs [? ? [?|] | |]]; try discriminate;
        (destruct (existsb _ _); [|discriminate]);
        rewrite Nat.eqb_refl in Hstep; injection Hstep as <-; now split.
    + destruct (tab_click_activates _ Hstep Hne) as (f & _ & _ & Hw & _).
      unfold previewInvariant, countOfShownDocument, pageInBounds. rewrite Hw.
      unfold exec. rewrite activeFileEffect_run. fields.
      split; [split; [lia | now left] | now left].
  - apply loaded_step in Hstep as (u & f & Hfu & Hu & Hw).
    unfold previewInvariant, countOfShownDocument, pageInBounds. rewrite Hw.
    unfold onDocumentLoadSuccess. cbn.
    split.
    + split; [apply Hb|]. destruct Hc as [H0 | (u' & f' & Hu' & Hf' & Hn)].
      * left. destruct Hb as [H1 [H | H]]; [exact H | lia].
      * rewrite Hfu in Hu'. injection Hu' as <-. rewrite Hu in Hf'.
        injection Hf' as <-. rewrite <- Hn. apply Hb.
    + right. exists u, f. auto.
  - apply back_step in Hstep as (Hp & Hn & Hw).
    unfold previewInvariant, countOfShownDocument, pageInBounds. rewrite Hw.
    unfold previousPage. cbn.
    split; [|exact Hc]. destruct Hb as [H1 [H | H]]; lia.
  - apply forward_step in Hstep as (Hp & Hn & Hw).
    unfold previewInvariant, countOfShownDocument, pageInBounds. rewrite Hw.
    unfold nextPage. cbn.
    split; [|exact Hc]. destruct Hb as [H1 [H | H]]; lia.
  - apply reader_step in Hstep as (f & _ & Hw).
    unfold previewInvariant, countOfShownDocument, pageInBounds. rewrite Hw.
    destruct (sheet_to_json (content f)); cbn; now split.
Qed.

Lemma reachable_invariant (m : Mounted) :
  reachable pdf_numPages sheet_to_json m -> previewInvariant pdf_numPages m.
Proof.
  intros (p & browser & es & Hrun). revert es m Hrun.
  apply runEvents_invariant; [apply mount_invariant|].
  intros c e c' _. apply step_invariant.
Qed.

(** C6. In every state of the viewer that can be reached, the page
    number is at least 1 and, once a page count of at least 1 has been
    learned, at most that count (before that it is 1). The page controls
    are shown only for a count above 1; the back control is disabled
    exactly when page <= 1 and the forward control exactly when
    page >= count, a disabled control gives no step, and a step by an
    enabled control moves the page by one and ends with
    1 <= page <= count. *)
Theorem page_navigation_bounded (m : Mounted) :
  reachable pdf_numPages sheet_to_json m ->
  let s := st (world m) in
  (1 <= pageNumber s)%Z /\
  (pageNumber s = 1 \/ pageNumber s <= numPages s)%Z /\
  ((1 <= numPages s)%Z -> (1 <= pageNumber s <= numPages s)%Z) /\
  (forall tabs u pg nav,
      render (props m) s = Viewer tabs (PdfDocument u pg (Some nav)) ->
      back_disabled nav = (pageNumber s <=? 1)%Z /\
      forward_disabled nav = (numPages s <=? pageNumber s)%Z) /\
  ((pageNumber s <= 1)%Z -> step pdf_numPages sheet_to_json m click_back = None) /\
  ((numPages s <= pageNumber s)%Z ->
   step pdf_numPages sheet_to_json m click_forward = None) /\
  (forall m',
      step pdf_numPages sheet_to_json m click_back = Some m' ->
      let s' := st (world m') in
      pageNumber s' = (pageNumber s - 1)%Z /\ numPages s' = numPages s /\
      (1 <= pageNumber s' <= numPages s')%Z) /\
  (forall m',
      step pdf_numPages sheet_to_json m click_forward = Some m' ->
      let s' := st (world m') in
      pageNumber s' = (pageNumber s + 1)%Z /\ numPages s' = numPages s /\
      (1 <= pageNumber s' <= numPages s')%Z).
Proof.
  intros Hreach. cbv zeta. destruct (reachable_invariant Hreach) as [[H1 Hb] _].
  split; [exact H1|]. split; [exact Hb|]. split; [lia|]. split.
  { intros tabs u pg nav Hr. apply nav_rendered in Hr as [_ ->]. now split. }
  split.
  { intros Hle. destruct (step _ _ m click_back) as [m'|] eqn:Hstep; [|reflexivity].
    apply back_step in Hstep. lia. }
  split.
  { intros Hle. destruct (step _ _ m click_forward) as [m'|] eqn:Hstep; [|reflexivity].
    apply forward_step in Hstep. lia. }
  split; intros m' Hstep.
  - apply back_step in Hstep as (Hp & Hn & ->). unfold previousPage. cbn. lia.
  - apply forward_step in Hstep as (Hp & Hn & ->). unfold nextPage. cbn. lia.
Qed.

End Preview.

Section PreviewRuns.
Import DocViewer.

Example onPageTwo_state :
  option_map (fun m => (pageNumber (st (world m)), numPages (st (world m)),
                        fileUrl (st (world m))))
             onPageTwo = Some (2%Z, 3%Z, Some 0).
Proof. vm_compute. reflexivity. Qed.

Lemma pageTwo_reachable : reachable threePages noRows pageTwo.
Proof.
  exists previewProps, emptyBrowser, [document_loaded; click_forward].
  vm_compute. reflexivity.
Defined.

Lemma pageThree_reachable : reachable threePages noRows pageThree.
Proof.
  exists previewProps, emptyBrowser, [document_loaded; click_forward; click_forward].
  vm_compute. reflexivity.
Defined.

Lemma page_navigation_bounded_witness :
  reachable threePages noRows pageTwo /\
  step threePages noRows pageTwo click_forward = Some pageThree /\
  pageNumber (st (world pageThree)) = 3%Z /\
  numPages (st (world pageThree)) = 3%Z /\
  step threePages noRows pageThree click_forward = None.
Proof.
  assert (Hstep : step threePages noRows pageTwo click_forward = Some pageThree)
    by (vm_compute; reflexivity).
  destruct (@page_navigation_bounded threePages noRows pageTwo pageTwo_reachable) as (_ & _ & _ & _ & _ & _ & _ & Hfwd).
  destruct (Hfwd pageThree Hstep) as (Hp & Hn & _).
  destruct (@page_navigation_bounded threePages noRows pageThree pageThree_reachable) as (_ & _ & _ & _ & _ & Hstop & _).
  split; [exact pageTwo_reachable|]. split; [exact Hstep|].
  split; [exact Hp|]. split; [exact Hn|].
  apply Hstop. rewrite Hp, Hn. vm_compute. discriminate.
Defined.

Lemma activation_resets_render_state_witness :
  step threePages noRows pageTwo (click_tab 1) = Some secondTab /\
  1 <> activeFileIndex (props pageTwo) /\
  pageNumber (st (world pageTwo)) = 2%Z /\
  pageNumber (st (world secondTab)) = 1%Z /\
  numPages (st (world secondTab)) = 0%Z /\
  fileUrl (st (world secondTab)) = None /\
  excelData (st (world secondTab)) = None.
Proof.
  assert (Hstep : step threePages noRows pageTwo (click_tab 1) = Some secondTab)
    by (vm_compute; reflexivity).
  assert (Hne : 1 <> activeFileIndex (props pageTwo)) by discriminate.
  destruct (@activation_resets_render_state threePages noRows pageTwo secondTab 1 Hstep Hne)
    as (f & Hf & _ & _ & _ & Hn & Hp & Hx & Hu & _).
  split; [exact Hstep|]. split; [exact Hne|]. split; [vm_compute; reflexivity|].
  split; [exact Hp|]. split; [exact Hn|]. split; [|exact Hx].
  rewrite Hu. vm_compute in Hf. injection Hf as <-. reflexivity.
Defined.

End PreviewRuns.

(** ** Remote save (ExtractionForm.tsx) *)
Section Save.
Import ExtractionForm.

Lemma handleSaveToBackend_world (w : World State) :
  exec handleSaveToBackend w =
  mkWorld {| values := values (st w); saveStatus := saving |}
          (baseURL w)
          (log w ++ [ev_setSaveStatus saving;
                     ev_axios_post "/save-shipment"
                       (Axios.buildFullPath (baseURL w) "/save-shipment")
                       (JsonBody (values (st w)))])
          (inflight w ++ [saveRequest (baseURL w) (values (st w))])
          (objectURLs w) (reads w) (timers w) (now w).
Proof.
  unfold handleSaveToBackend, saveRequest. cbn. f_equal.
  rewrite <- ?app_assoc. reflexivity.
Qed.

Lemma handleSaveToBackend_settled_world (r : Settled unit) (w : World State) :
  exec (handleSaveToBackend_settled r) w =
  mkWorld {| values := values (st w); saveStatus := terminalStatus r |}
          (baseURL w)
          (log w ++ match r with
                    | Fulfilled _ => []
                    | Rejected _ => [ev_console_error "Error saving to backend:"]
                    end ++ [ev_setSaveStatus (terminalStatus r);
                            ev_setTimeout reset_save_status 3000])
          (inflight w) (objectURLs w) (reads w)
          (insertTimer (resetTimer (now w)) (timers w)) (now w).
Proof.
  destruct r; cbn; f_equal; rewrite <- ?app_assoc; reflexivity.
Qed.

Lemma fireDue_cons (deadline : nat) (t : Timer) (r : list Timer) (w : World State) :
  fireDue deadline (t :: r) w =
  if (due t <=? deadline)%nat then
    fireDue deadline r
      (exec (runCallback (callback t))
         (with_now (fun n => Nat.max n (due t)) (with_timers (fun _ => r) w)))
  else with_timers (fun _ => t :: r) w.
Proof. reflexivity. Qed.

Lemma fireDue_values (deadline : nat) (ts : list Timer) (w : World State) :
  values (st (fireDue deadline ts w)) = values (st w).
Proof.
  revert w. induction ts as [|t r IH]; intros w; [reflexivity|].
  rewrite fireDue_cons. destruct (due t <=? deadline)%nat; [|reflexivity].
  rewrite IH. now destruct (callback t).
Qed.

Lemma fireDue_idle (deadline : nat) (ts : list Timer) (w : World State) :
  saveStatus (st w) = idle -> saveStatus (st (fireDue deadline ts w)) = idle.
Proof.
  revert w. induction ts as [|t r IH]; intros w Hw; [exact Hw|].
  rewrite fireDue_cons. destruct (due t <=? deadline)%nat; [|exact Hw].
  apply IH. now destruct (callback t).
Qed.



Lemma insertTimer_Forall (P : Timer -> Prop) (t : Timer) (ts : list Timer) :
  P t -> Forall P ts -> Forall P (insertTimer t ts).
Proof.
  intros Ht Hall. induction Hall as [|x r Hx Hr IH]; cbn [insertTimer].
  - now constructor.
  - destruct (due t <? due x)%nat; repeat constructor; assumption.
Qed.


Example retry_fails_from_idle :
  option_map (fun w => (saveStatus (st w), length (inflight w), timers w))
             (FormPage.run (FormPage.start None) retryStillInFlight)
  = Some (idle, 1, []).
Proof. vm_compute. reflexivity. Qed.



(** *** The origin the requests go to *)

Lemma configuredBaseURL_nonempty (VITE_API_URL : option string) :
  String.eqb (configuredBaseURL VITE_API_URL) "" = false.
Proof.
  unfold configuredBaseURL. destruct VITE_API_URL as [u|]; [|reflexivity].
  destruct (String.eqb u "") eqn:Hu; [reflexivity | exact Hu].
Qed.

(** C2, as the code has it. The save request goes to the configured base
    URL followed by [/save-shipment]. The extraction request does not:
    its URL is written out in full in the handler, so axios takes it as
    it is, and whatever origin is configured the request goes to
    [http://localhost:8000/process-documents]. With the origin
    [https://api.example.com] the save goes to
    [https://api.example.com/save-shipment] and the extraction to
    localhost. *)
Theorem extraction_request_ignores_base_url (VITE_API_URL : option string) :
  let shell := Shell.start VITE_API_URL in
  let form := main VITE_API_URL {| values := sampleRecord; saveStatus := idle |} in
  baseURL shell = Some (configuredBaseURL VITE_API_URL) /\
  map req_url (inflight (exec (App.handleFilesSelected [bol_pdf; packing_xlsx]) shell))
    = ["http://localhost:8000/process-documents"] /\
  map req_url (inflight (exec handleSaveToBackend form))
    = [String.append (stripTrailingSlashes (configuredBaseURL VITE_API_URL))
                     "/save-shipment"] /\
  map req_url
      (inflight (exec (App.handleFilesSelected [bol_pdf; packing_xlsx])
                      (Shell.start (Some "https://api.example.com"))))
    = ["http://localhost:8000/process-documents"] /\
  map req_url (inflight (exec handleSaveToBackend editedForm))
    = ["https://api.example.com/save-shipment"] /\
  String.prefix "https://api.example.com" "http://localhost:8000/process-documents" = false.
Proof.
  intros shell form. split; [reflexivity|]. split.
  { unfold shell. rewrite handleFilesSelected_accepted by reflexivity. reflexivity. }
  split.
  { unfold form. rewrite handleSaveToBackend_world. cbn [inflight main app map].
    unfold saveRequest. cbn [req_url baseURL]. unfold Axios.buildFullPath, main.
    cbn [baseURL].
    rewrite configuredBaseURL_nonempty. reflexivity. }
  repeat split; reflexivity.
Qed.

End Save.

(** ** More on the shell (App.tsx) *)
Section ShellMore.
Import App.

Lemma fold_append_parts (sel : list File) (acc : list (string * File)) :
  fold_left (fun formData file => formData ++ [("files", file)]) sel acc
  = acc ++ map (fun file => ("files", file)) sel.
Proof.
  revert acc. induction sel as [|f sel IH]; intros acc; cbn [fold_left map].
  - now rewrite app_nil_r.
  - rewrite IH, <- app_assoc. reflexivity.
Qed.

(** X1. The multipart body has one part per selected file, each under the
    field name [files], in the order of the selection; nothing is dropped,
    merged or reordered. *)
Theorem form_data_one_part_per_file (selectedFiles : list File) :
  buildFormData selectedFiles = map (fun file => ("files", file)) selectedFiles /\
  map snd (buildFormData selectedFiles) = selectedFiles /\
  Forall (fun part => fst part = "files") (buildFormData selectedFiles) /\
  length (buildFormData selectedFiles) = length selectedFiles.
Proof.
  assert (H : buildFormData selectedFiles
              = map (fun file => ("files", file)) selectedFiles)
    by apply (fold_append_parts selectedFiles []).
  rewrite H. split; [reflexivity|]. split; [|split].
  - rewrite map_map. cbn. apply map_id.
  - apply Forall_map. now apply Forall_forall.
  - apply length_map.
Qed.

Lemma removeNth_incl {A : Type} (k : nat) (l : list A) (x : A) :
  In x (removeNth k l) -> In x l.
Proof.
  revert k. induction l as [|y l IH]; intros [|k]; cbn [removeNth In]; try easy.
  - auto.
  - intros [-> | Hin]; eauto.
Qed.

Lemma step_carries_files (w w' : World State) (e : Shell.UiEvent) :
  quietOrLoading w -> inflightCarriesFiles w -> Shell.step w e = Some w' ->
  inflightCarriesFiles w'.
Proof.
  intros Hq Hc Hstep. unfold inflightCarriesFiles in *.
  assert (Hsubmit : forall fs v, inflight v = [] ->
             forall req, In req (inflight (exec (handleFilesSelected fs) v)) ->
                         req = extractionRequest (files (st (exec (handleFilesSelected fs) v)))).
  { intros fs v Hv req. destruct (hasPdf fs && hasExcel fs) eqn:Hacc.
    - rewrite handleFilesSelected_accepted by assumption. cbn [inflight st files].
      rewrite Hv. intros [<- | []]. reflexivity.
    - rewrite handleFilesSelected_rejected by assumption. cbn. now rewrite Hv. }
  destruct e as [fs | ofs | | i | k r]; unfold Shell.step in Hstep.
  - destruct (length (files (st w)) =? 0)%nat eqn:Hlen; [|discriminate].
    injection Hstep as <-. apply Nat.eqb_eq, length_zero_iff_nil in Hlen.
    destruct Hq as [[Hq Hl] | (req & _ & _ & _ & Hne)]; [|contradiction].
    rewrite Hl. unfold FileUpload.handleDrop.
    change (exec (emit ev_preventDefault ;; handleFilesSelected fs) w)
      with (exec (handleFilesSelected fs)
                 (with_log (fun l => l ++ [ev_preventDefault]) w)).
    now apply Hsubmit.
  - destruct (length (files (st w)) =? 0)%nat eqn:Hlen; [|discriminate].
    injection Hstep as <-. apply Nat.eqb_eq, length_zero_iff_nil in Hlen.
    destruct Hq as [[Hq Hl] | (req & _ & _ & _ & Hne)]; [|contradiction].
    rewrite Hl. destruct ofs as [fs|]; cbn [FileUpload.handleChange negb].
    + now apply Hsubmit.
    + exact Hc.
  - destruct (0 <? length (files (st w)))%nat; [|discriminate].
    destruct (isLoading (st w)) eqn:Hl; [discriminate|].
    injection Hstep as <-.
    destruct Hq as [[Hq _] | (req & _ & Hl' & _)]; [|congruence].
    cbn. rewrite Hq. intros req [].
  - destruct (_ && _); [|discriminate]. injection Hstep as <-. exact Hc.
  - destruct (nth_error (inflight w) k) as [req|] eqn:Hk; [|discriminate].
    injection Hstep as <-. rewrite settled_world. cbn [inflight st files with_inflight].
    intros req' Hin. apply Hc. eapply removeNth_incl; eauto.
Qed.

Lemma reachable_carries_files (w : World State) :
  Shell.reachable w -> inflightCarriesFiles w.
Proof.
  revert w. apply reachable_induction.
  - intros env req [].
  - intros w e w' Hreach IH Hstep.
    eapply step_carries_files; eauto. now apply reachable_quietOrLoading.
Qed.

(** X2. In every state of the application the user can reach, at most one
    extraction request is in flight; the loading flag is on exactly while
    one is; that request carries the files on display, which are not
    empty; the loading overlay is shown exactly then, the Reset button is
    disabled exactly then, and the intake surface, when it is on the
    page, is never given [isLoading = true]. *)
Theorem one_extraction_at_a_time (w : World State) :
  Shell.reachable w ->
  length (inflight w) <= 1 /\
  (isLoading (st w) = true <-> inflight w <> []) /\
  (inflight w <> [] ->
   inflight w = [extractionRequest (files (st w))] /\ files (st w) <> []) /\
  overlay (renderApp (st w)) = isLoading (st w) /\
  (forall disabled, resetButton (renderApp (st w)) = Some disabled ->
                    disabled = isLoading (st w)) /\
  intake (renderApp (st w)) <> Some true.
Proof.
  intros Hreach.
  pose proof (reachable_carries_files Hreach) as Hc.
  destruct (reachable_quietOrLoading Hreach) as [[Hq Hl] | (req & Hq & Hl & _ & Hne)].
  - rewrite Hq, Hl. split; [cbn; lia|]. split; [split; [discriminate | congruence]|].
    split; [congruence|]. unfold renderApp.
    destruct (length (files (st w)) =? 0)%nat; cbn; rewrite ?Hl.
    + repeat split; try discriminate.
    + repeat split; try discriminate. now intros d [= <-].
  - assert (Hreq : req = extractionRequest (files (st w))) by (apply Hc; rewrite Hq; now left).
    rewrite Hq, Hl. split; [cbn; lia|]. split; [split; [discriminate | reflexivity]|].
    split; [intros _; split; [now rewrite Hreq | exact Hne]|].
    unfold renderApp.
    destruct (length (files (st w)) =? 0)%nat eqn:Hlen.
    + apply Nat.eqb_eq, length_zero_iff_nil in Hlen. contradiction.
    + cbn. rewrite Hl. repeat split; try discriminate. now intros d [= <-].
Qed.

Lemma one_extraction_at_a_time_witness :
  let w := exec (handleFilesSelected [bol_pdf; packing_xlsx]) (Shell.start None) in
  Shell.reachable w /\
  inflight w = [extractionRequest [bol_pdf; packing_xlsx]] /\
  overlay (renderApp (st w)) = true.
Proof.
  intros w.
  assert (Hreach : Shell.reachable w).
  { exists None, [Shell.change (Some [bol_pdf; packing_xlsx])]. reflexivity. }
  destruct (@one_extraction_at_a_time w Hreach) as (_ & _ & Hin & Hov & _).
  split; [exact Hreach|]. split.
  - apply Hin. discriminate.
  - rewrite Hov. reflexivity.
Defined.

Lemma step_data (w w' : World State) (e : Shell.UiEvent) :
  Shell.step w e = Some w' ->
  data (st w') = data (st w) \/ data (st w') = None \/
  exists k d, e = Shell.settle k (Fulfilled d) /\ data (st w') = Some d.
Proof.
  intros Hstep. destruct e as [fs | ofs | | i | k r]; unfold Shell.step in Hstep.
  - destruct (_ =? _)%nat; [|discriminate]. injection Hstep as <-.
    unfold FileUpload.handleDrop. destruct (isLoading (st w)); [now left|].
    change (exec (emit ev_preventDefault ;; handleFilesSelected fs) w)
      with (exec (handleFilesSelected fs)
                 (with_log (fun l => l ++ [ev_preventDefault]) w)).
    destruct (hasPdf fs && hasExcel fs) eqn:Hacc;
      [rewrite handleFilesSelected_accepted | rewrite handleFilesSelected_rejected];
      auto.
  - destruct (_ =? _)%nat; [|discriminate]. injection Hstep as <-.
    destruct ofs as [fs|]; [|now left]. cbn [FileUpload.handleChange].
    destruct (isLoading (st w)); [now left|]. cbn [negb].
    destruct (hasPdf fs && hasExcel fs) eqn:Hacc;
      [rewrite handleFilesSelected_accepted | rewrite handleFilesSelected_rejected];
      auto.
  - destruct (_ && _); [|discriminate]. injection Hstep as <-. now left.
  - destruct (_ && _); [|discriminate]. injection Hstep as <-. now left.
  - destruct (nth_error _ _); [|discriminate]. injection Hstep as <-.
    rewrite settled_world. destruct r as [d|reason]; cbn.
    + right; right. now exists k, d.
    + now left.
Qed.

(** X3. The extracted record is never made up on the client: whenever it
    is non-null after a run of events, it is the body of a response with
    which an extraction request of that run was fulfilled. *)
Theorem record_comes_from_a_response
    (VITE_API_URL : option string) (es : list Shell.UiEvent) (w : World State)
    (record : ShipmentData) :
  Shell.run (Shell.start VITE_API_URL) es = Some w ->
  data (st w) = Some record ->
  exists k, In (Shell.settle k (Fulfilled record)) es.
Proof.
  revert w. induction es as [|e es IH] using rev_ind; intros w Hrun Hdata.
  - injection Hrun as <-. discriminate.
  - unfold Shell.run in Hrun. rewrite runEvents_snoc in Hrun.
    destruct (runEvents Shell.step (Shell.start VITE_API_URL) es) as [w1|] eqn:Hes;
      [|discriminate].
    destruct (step_data _ _ Hrun) as [Hsame | [Hnone | (k & d & -> & Hd)]].
    + destruct (IH w1 Hes) as (k & Hin); [congruence|].
      exists k. apply in_or_app. now left.
    + congruence.
    + exists k. apply in_or_app. right. left. congruence.
Qed.

Lemma record_comes_from_a_response_witness :
  let es := [Shell.drop [bol_pdf; packing_xlsx]; Shell.settle 0 (Fulfilled sampleRecord)] in
  exists w, Shell.run (Shell.start None) es = Some w /\
            data (st w) = Some sampleRecord /\
            exists k, In (Shell.settle k (Fulfilled sampleRecord)) es.
Proof.
  intros es.
  destruct (Shell.run (Shell.start None) es) as [w|] eqn:Hrun; [|discriminate].
  exists w. split; [reflexivity|].
  assert (Hd : data (st w) = Some sampleRecord).
  { vm_compute in Hrun. injection Hrun as <-. reflexivity. }
  split; [exact Hd|].
  exact (@record_comes_from_a_response None es w sampleRecord Hrun Hd).
Defined.

End ShellMore.

(** ** More on the viewer (DocViewer.tsx) *)
Section PreviewMore.
Import DocViewer.

Variable pdf_numPages : list byte -> Z.
Variable sheet_to_json : list byte -> option Sheet.

(** *** The tab strip *)

Lemma tabsFrom_labels (from active : nat) (fs : list File) :
  map tab_label (tabsFrom from active fs) = map name fs /\
  map tab_index (tabsFrom from active fs) = seq from (length fs).
Proof.
  revert from. induction fs as [|f fs IH]; intros from; cbn; [easy|].
  destruct (IH (S from)) as [-> ->]. easy.
Qed.

Lemma tabsFrom_active (from active : nat) (fs : list File) (t : Tab) :
  In t (tabsFrom from active fs) -> (tab_active t = true <-> tab_index t = active).
Proof.
  revert from. induction fs as [|f fs IH]; intros from; cbn; [easy|].
  intros [<- | Hin]; [cbn; apply Nat.eqb_eq | eauto].
Qed.

Lemma tabsFrom_one_active (from active : nat) (fs : list File) :
  length (filter tab_active (tabsFrom from active fs)) =
  if (from <=? active)%nat && (active <? from + length fs)%nat then 1 else 0.
Proof.
  revert from. induction fs as [|f fs IH]; intros from; cbn [tabsFrom filter length tab_active].
  - destruct (from <=? active)%nat eqn:H1; [|reflexivity].
    destruct (active <? from + 0)%nat eqn:H2; [|reflexivity].
    apply Nat.leb_le in H1. apply Nat.ltb_lt in H2. lia.
  - destruct (from =? active)%nat eqn:Heq; cbn [length]; rewrite IH.
    + apply Nat.eqb_eq in Heq. subst.
      assert (H1 : (S active <=? active)%nat = false) by (apply Nat.leb_gt; lia).
      assert (H2 : (active <=? active)%nat = true) by (apply Nat.leb_le; lia).
      assert (H3 : (active <? active + S (length fs))%nat = true) by (apply Nat.ltb_lt; lia).
      now rewrite H1, H2, H3.
    + apply Nat.eqb_neq in Heq.
      destruct (S from <=? active)%nat eqn:H1, (from <=? active)%nat eqn:H2;
        rewrite ?Nat.leb_le, ?Nat.leb_gt in *; try lia; cbn [andb]; [|reflexivity].
      destruct (active <? S from + length fs)%nat eqn:H3,
               (active <? from + S (length fs))%nat eqn:H4;
        rewrite ?Nat.ltb_lt, ?Nat.ltb_ge in *; try lia; reflexivity.
Qed.

(** X4. Whenever the viewer shows its tab strip, the strip has one tab per
    file, in upload order, labelled with the file names and numbered
    from 0; a tab is marked active exactly when it is the tab of the
    active index, and exactly one tab is so marked. *)
Theorem tab_strip_mirrors_files (p : Props) (s : State) (tabs : list Tab) (c : Content) :
  render p s = Viewer tabs c ->
  map tab_label tabs = map name (files p) /\
  map tab_index tabs = seq 0 (length (files p)) /\
  Forall (fun t => tab_active t = true <-> tab_index t = activeFileIndex p) tabs /\
  length (filter tab_active tabs) = 1.
Proof.
  unfold render. intros Hr.
  destruct (nth_error (files p) (activeFileIndex p)) as [f|] eqn:Hf; [|discriminate].
  injection Hr as <- _.
  destruct (tabsFrom_labels 0 (activeFileIndex p) (files p)) as [Hl Hi].
  split; [exact Hl|]. split; [exact Hi|]. split.
  - apply Forall_forall. intros t. apply tabsFrom_active.
  - rewrite tabsFrom_one_active.
    assert (Hlt : activeFileIndex p < length (files p))
      by (apply nth_error_Some; congruence).
    assert (H : (activeFileIndex p <? 0 + length (files p))%nat = true)
      by (apply Nat.ltb_lt; lia).
    now rewrite H.
Qed.

End PreviewMore.

Lemma tab_strip_mirrors_files_witness :
  exists c,
    DocViewer.render previewProps DocViewer.initial
    = DocViewer.Viewer
        [DocViewer.Build_Tab 0 "BOL-123.PDF" true;
         DocViewer.Build_Tab 1 "packing_list.xlsx" false;
         DocViewer.Build_Tab 2 "notes.txt" false] c /\
    length (filter DocViewer.tab_active
              [DocViewer.Build_Tab 0 "BOL-123.PDF" true;
               DocViewer.Build_Tab 1 "packing_list.xlsx" false;
               DocViewer.Build_Tab 2 "notes.txt" false]) = 1.
Proof.
  eexists. 
  assert (Hr : DocViewer.render previewProps DocViewer.initial
               = DocViewer.Viewer
                   [DocViewer.Build_Tab 0 "BOL-123.PDF" true;
                    DocViewer.Build_Tab 1 "packing_list.xlsx" false;
                    DocViewer.Build_Tab 2 "notes.txt" false]
                   (DocViewer.NoPreview "BOL-123.PDF")) by (vm_compute; reflexivity).
  split; [exact Hr|].
  exact (proj2 (proj2 (proj2 (@tab_strip_mirrors_files previewProps DocViewer.initial _ _ Hr)))).
Defined.

(** *** Object URLs *)
Section PreviewURLs.
Import DocViewer.

Variable pdf_numPages : list byte -> Z.
Variable sheet_to_json : list byte -> option Sheet.

Lemma revoke_length (u : Url) (l : list (option File)) :
  length (revoke u l) = length l.
Proof.
  revert u. induction l as [|x l IH]; intros [|u]; cbn; auto.
Qed.

Lemma revoke_other (u u' : Url) (l : list (option File)) :
  u <> u' -> nth_error (revoke u l) u' = nth_error l u'.
Proof.
  revert u u'. induction l as [|x l IH]; intros [|u] [|u'] Hne; cbn;
    try reflexivity; try congruence. apply IH. congruence.
Qed.

Lemma revoke_same (u : Url) (l : list (option File)) (f : File) :
  nth_error (revoke u l) u <> Some (Some f).
Proof.
  revert u. induction l as [|x l IH]; intros [|u]; cbn; first [easy | apply IH].
Qed.

Lemma revoke_firstn (base u : nat) (l : list (option File)) :
  base <= u -> firstn base (revoke u l) = firstn base l.
Proof.
  revert base u. induction l as [|x l IH]; intros [|base] [|u] Hle; cbn;
    first [easy | lia | f_equal; apply IH; lia].
Qed.

Lemma runCleanup_world (c : option Url) (w : World State) :
  st (exec (runCleanup c) w) = st w /\
  objectURLs (exec (runCleanup c) w)
  = match c with Some u => revoke u (objectURLs w) | None => objectURLs w end.
Proof. destruct c; split; reflexivity. Qed.

(** The effect, run with a cleanup that covers every live URL of the
    viewer, leaves the viewer with at most the URL of the new file. *)
Lemma effect_urls (base : nat) (p : Props) (c : option Url) (w : World State) :
  base <= length (objectURLs w) ->
  (forall u, c = Some u -> base <= u) ->
  (forall u, base <= u -> liveURL w u -> c = Some u) ->
  (activeFile p = None -> c = None /\ fileUrl (st w) = None) ->
  urlInvariant base (runEffect p c w) /\
  firstn base (objectURLs (world (runEffect p c w))) = firstn base (objectURLs w).
Proof.
  intros Hbase Hc Hlive Hnone. unfold runEffect. rewrite runState_seq.
  destruct (runCleanup_world c w) as [Hst Hurls].
  set (w0 := exec (runCleanup c) w) in *.
  assert (Hlen0 : length (objectURLs w0) = length (objectURLs w)).
  { rewrite Hurls. destruct c; [apply revoke_length | reflexivity]. }
  assert (Hdead : forall u, base <= u -> ~ liveURL w0 u).
  { intros u Hu [f Hf]. rewrite Hurls in Hf. destruct c as [u0|].
    - destruct (Nat.eq_dec u0 u) as [-> | Hne].
      + now apply revoke_same in Hf.
      + rewrite revoke_other in Hf by assumption.
        assert (Some u0 = Some u) by (apply Hlive; [assumption | now exists f]).
        congruence.
    - assert (@None Url = Some u) by (apply Hlive; [assumption | now exists f]).
      discriminate. }
  assert (Hfirst : firstn base (objectURLs w0) = firstn base (objectURLs w)).
  { rewrite Hurls. destruct c as [u0|]; [|reflexivity]. apply revoke_firstn. now apply Hc. }
  clearbody w0. destruct (activeFile p) as [f|] eqn:Hf.
  - rewrite activeFileEffect_run. unfold urlInvariant, liveURL. cbn zeta.
    cbn [world cleanup props st fileUrl objectURLs]. rewrite Hf.
    destruct (isPdfName f) eqn:Hpdf.
    + split; [|rewrite firstn_app;
               replace (base - length (objectURLs w0)) with 0 by lia;
               cbn; now rewrite app_nil_r].
      split; [reflexivity|]. split; [rewrite length_app; cbn; lia|]. split; [|split].
      * intros u [= <-]. split; [lia|]. exists f. repeat split; auto.
        rewrite nth_error_app2 by lia. now rewrite Nat.sub_diag.
      * intros u Hu [g Hg].
        destruct (Nat.lt_ge_cases u (length (objectURLs w0))) as [Hlt | Hge].
        -- rewrite nth_error_app1 in Hg by assumption.
           exfalso. apply (Hdead u Hu). now exists g.
        -- destruct (Nat.eq_dec u (length (objectURLs w0))) as [-> | Hne]; [reflexivity|].
           assert (Hout : nth_error (objectURLs w0 ++ [Some f]) u = None).
           { apply nth_error_None. rewrite length_app. cbn. lia. }
           congruence.
      * discriminate.
    + split; [|exact Hfirst].
      split; [reflexivity|]. split; [lia|]. split; [|split].
      * discriminate.
      * intros u Hu Hl. exfalso. now apply (Hdead u Hu).
      * intros g [= <-]. congruence.
  - destruct (Hnone eq_refl) as [-> Hfu]. cbn.
    split; [|exact Hfirst]. unfold urlInvariant. cbn [world cleanup props].
    rewrite Hst, Hfu, Hf. split; [reflexivity|]. split; [lia|]. split; [|split].
    + discriminate.
    + intros u Hu Hl. exfalso. now apply (Hdead u Hu).
    + discriminate.
Qed.

(** What is rendered for a defined active file, by its extension. *)
Lemma render_shape (p : Props) (s : State) (f : File) :
  activeFile p = Some f ->
  render p s =
  Viewer (tabsFrom 0 (activeFileIndex p) (files p))
    (let placeholder :=
       if isExcelName f then
         match excelData s with
         | Some rows => ExcelTable rows
         | None => NoPreview (name f)
         end
       else NoPreview (name f) in
     if isPdfName f then
       match fileUrl s with
       | Some url =>
           PdfDocument url (pageNumber s)
             (if (1 <? numPages s)%Z then
                Some {| back_disabled := (pageNumber s <=? 1)%Z;
                        shown_page := pageNumber s;
                        shown_total := numPages s;
                        forward_disabled := (numPages s <=? pageNumber s)%Z |}
              else None)
       | None => placeholder
       end
     else placeholder).
Proof.
  unfold activeFile, render, isPdfName, isExcelName. intros ->. cbv zeta.
  destruct (endsWith (toLowerCase (name f)) ".pdf");
    destruct (fileUrl s);
    destruct (endsWith (toLowerCase (name f)) ".xlsx" || endsWith (toLowerCase (name f)) ".xls");
    destruct (excelData s); reflexivity.
Qed.

Lemma reader_step_eq (m : Mounted) (k : nat) :
  step pdf_numPages sheet_to_json m (reader_onload k) =
  match nth_error (reads (world m)) k with
  | Some f =>
      Some {| props := props m; cleanup := cleanup m;
              world := exec (onload (sheet_to_json (content f)))
                            (with_reads (removeNth k) (world m)) |}
  | None => None
  end.
Proof.
  unfold step. cbv zeta.
  destruct (render _ _) as [|? [? ? [?|]| |]]; reflexivity.
Qed.

(** Every event but a click on another tab keeps the props, the cleanup,
    the object URLs and the URL in the state. *)
Lemma step_keeps_urls (m m' : Mounted) (e : UiEvent) :
  (forall index, e = click_tab index -> index = activeFileIndex (props m)) ->
  step pdf_numPages sheet_to_json m e = Some m' ->
  props m' = props m /\ cleanup m' = cleanup m /\
  objectURLs (world m') = objectURLs (world m) /\
  fileUrl (st (world m')) = fileUrl (st (world m)).
Proof.
  intros Htab Hstep. destruct e as [index | | | | k].
  - rewrite (Htab index eq_refl) in Hstep. unfold step in Hstep; cbv zeta in Hstep.
    destruct (render _ _) as [|tabs [? ? [?|] | |]]; try discriminate;
      (destruct (existsb _ _); [|discriminate]);
      rewrite Nat.eqb_refl in Hstep; injection Hstep as <-; auto.
  - unfold step in Hstep; cbv zeta in Hstep.
    destruct (render _ _) as [|tabs [u pg [nav|] | |]]; try discriminate;
      (destruct (nth_error (objectURLs (world m)) u) as [[f|]|]; try discriminate);
      injection Hstep as <-; auto.
  - unfold step in Hstep; cbv zeta in Hstep.
    destruct (render _ _) as [|tabs [u pg [nav|] | |]]; try discriminate.
    destruct (back_disabled nav); [discriminate|]. injection Hstep as <-. auto.
  - unfold step in Hstep; cbv zeta in Hstep.
    destruct (render _ _) as [|tabs [u pg [nav|] | |]]; try discriminate.
    destruct (forward_disabled nav); [discriminate|]. injection Hstep as <-. auto.
  - rewrite reader_step_eq in Hstep.
    destruct (nth_error (reads (world m)) k) as [f|]; [|discriminate].
    injection Hstep as <-. destruct (sheet_to_json (content f)); auto.
Qed.

Lemma tab_click_effect (m m' : Mounted) (index : nat) :
  step pdf_numPages sheet_to_json m (click_tab index) = Some m' ->
  index <> activeFileIndex (props m) ->
  m' = runEffect {| files := files (props m); activeFileIndex := index |}
                 (cleanup m) (world m) /\
  exists f, nth_error (files (props m)) index = Some f.
Proof.
  intros Hstep Hne. unfold step in Hstep; cbv zeta in Hstep.
  destruct (render (props m) (st (world m))) as [|tabs c] eqn:Hr; [discriminate|].
  assert (Hstep' : (if existsb (fun t => (tab_index t =? index)%nat) tabs
                    then if (index =? activeFileIndex (props m))%nat then Some m
                         else Some (runEffect {| files := files (props m);
                                                 activeFileIndex := index |}
                                              (cleanup m) (world m))
                    else None) = Some m')
    by (destruct c as [? ? [?|] | |]; exact Hstep).
  destruct (existsb _ tabs) eqn:Htab; [|discriminate].
  apply Nat.eqb_neq in Hne. rewrite Hne in Hstep'. injection Hstep' as <-.
  split; [reflexivity|]. eapply shown_tab_has_file; eauto.
Qed.

Lemma run_urls (p : Props) (browser : World unit) (es : list UiEvent) (m : Mounted) :
  run pdf_numPages sheet_to_json (mount p browser) es = Some m ->
  urlInvariant (length (objectURLs browser)) m /\
  firstn (length (objectURLs browser)) (objectURLs (world m)) = objectURLs browser.
Proof.
  revert es m. apply runEvents_invariant.
  - unfold mount.
    edestruct (@effect_urls (length (objectURLs browser)) p None) as [Hinv Hfirst];
      [| | | | split; [exact Hinv|]; rewrite Hfirst; apply firstn_all].
    + cbn. lia.
    + discriminate.
    + intros u Hu [f Hf]. cbn in Hf.
      assert (nth_error (objectURLs browser) u = None) by now apply nth_error_None.
      congruence.
    + intros _. split; reflexivity.
  - intros m e m' _ [Hinv Hfirst] Hstep.
    assert (Hcase : (forall index, e = click_tab index ->
                                   index = activeFileIndex (props m)) \/
                    exists index, e = click_tab index /\
                                  index <> activeFileIndex (props m)).
    { destruct e as [index | | | | k]; try (left; intros ? [=]; fail).
      destruct (Nat.eq_dec index (activeFileIndex (props m))) as [Heq | Hne];
        [left; intros ? [= <-]; exact Heq | right; eauto]. }
    destruct Hcase as [Hsame | (index & -> & Hother)].
    + destruct (step_keeps_urls _ Hsame Hstep) as (Hp & Hc & Hu & Hf).
      unfold urlInvariant, liveURL in *. cbv zeta in *.
      rewrite Hp, Hc, Hu, Hf. split; [exact Hinv | exact Hfirst].
    + 
      destruct (tab_click_effect _ Hstep Hother) as [-> [f Hf]].
      destruct Hinv as (Hc & Hlen & Hcur & Hlive & _).
      edestruct (@effect_urls (length (objectURLs browser))
                   {| files := files (props m); activeFileIndex := index |}
                   (cleanup m) (world m)) as [Hinv' Hfirst'];
        [exact Hlen | | | | split; [exact Hinv' | now rewrite Hfirst']].
      * intros u Hu. rewrite Hc in Hu. now apply Hcur.
      * intros u Hu Hl. rewrite Hc. now apply Hlive.
      * unfold activeFile. cbn [files activeFileIndex]. congruence.
Qed.

(** X5. The viewer keeps at most one object URL alive. After any run of
    events on a mounted viewer, the cleanup React holds is for the URL
    in the state; every object URL the viewer created, other than that
    one, has been revoked; once the viewer is unmounted none of its
    URLs is live; and the URLs the browser had handed out before are
    untouched throughout. *)
Theorem viewer_releases_object_urls
    (p : Props) (browser : World unit) (es : list UiEvent) (m : Mounted) :
  run pdf_numPages sheet_to_json (mount p browser) es = Some m ->
  let base := length (objectURLs browser) in
  cleanup m = fileUrl (st (world m)) /\
  (forall u, base <= u -> liveURL (world m) u -> fileUrl (st (world m)) = Some u) /\
  (forall u, base <= u -> ~ liveURL (unmount m) u) /\
  firstn base (objectURLs (world m)) = objectURLs browser /\
  firstn base (objectURLs (unmount m)) = objectURLs browser.
Proof.
  intros Hrun base. destruct (run_urls _ _ _ Hrun) as [(Hc & Hlen & Hcur & Hlive & _) Hfirst].
  fold base in Hlen, Hcur, Hlive, Hfirst.
  split; [exact Hc|]. split; [exact Hlive|].
  unfold unmount. destruct (runCleanup_world (cleanup m) (world m)) as [_ Hurls].
  split.
  - intros u Hu [f Hf]. rewrite Hurls in Hf. destruct (cleanup m) as [u0|] eqn:Hcl.
    + destruct (Nat.eq_dec u0 u) as [-> | Hne].
      * now apply revoke_same in Hf.
      * rewrite revoke_other in Hf by assumption.
        assert (fileUrl (st (world m)) = Some u) by (apply Hlive; [assumption | now exists f]).
        congruence.
    + assert (fileUrl (st (world m)) = Some u) by (apply Hlive; [assumption | now exists f]).
      congruence.
  - split; [exact Hfirst|]. rewrite Hurls. destruct (cleanup m) as [u0|] eqn:Hcl; [|exact Hfirst].
    rewrite revoke_firstn; [exact Hfirst|].
    apply Hcur. congruence.
Qed.


(** *** Paging back and forth *)

Lemma render_pdf_file (p : Props) (s : State) (tabs : list Tab) (u : Url) (pg : Z)
    (nav : option NavControls) :
  render p s = Viewer tabs (PdfDocument u pg nav) ->
  exists f, activeFile p = Some f /\ isPdfName f = true /\ fileUrl s = Some u.
Proof.
  intros Hr. destruct (activeFile p) as [f|] eqn:Hf.
  - rewrite (render_shape _ _ Hf) in Hr. cbv zeta in Hr. exists f.
    destruct (isPdfName f); [destruct (fileUrl s) as [url|]|];
      try (destruct (isExcelName f); [destruct (excelData s)|]; discriminate).
    injection Hr as _ -> _ _. auto.
  - unfold activeFile in Hf. unfold render in Hr. now rewrite Hf in Hr.
Qed.

Lemma nav_step_file (m m1 : Mounted) (e : UiEvent) :
  e = click_back \/ e = click_forward ->
  step pdf_numPages sheet_to_json m e = Some m1 ->
  exists f u, activeFile (props m) = Some f /\ isPdfName f = true /\
              fileUrl (st (world m)) = Some u.
Proof.
  intros He Hstep. unfold step in Hstep; cbv zeta in Hstep.
  destruct (render _ _) as [|tabs [u pg nav | |]] eqn:Hr;
    try (destruct He as [-> | ->]; discriminate).
  apply render_pdf_file in Hr as (f & Hf & Hp & Hu). eauto.
Qed.

Lemma paging_state (w : World State) :
  st (exec nextPage w) =
    Build_State (numPages (st w)) (pageNumber (st w) + 1) (fileUrl (st w)) (excelData (st w)) /\
  st (exec previousPage w) =
    Build_State (numPages (st w)) (pageNumber (st w) - 1) (fileUrl (st w)) (excelData (st w)).
Proof. split; reflexivity. Qed.

(** The step a page control gives on a viewer that shows a PDF with more
    than one page. *)
Lemma nav_step_eq (m : Mounted) (f : File) (u : Url) :
  activeFile (props m) = Some f -> isPdfName f = true ->
  fileUrl (st (world m)) = Some u -> (1 < numPages (st (world m)))%Z ->
  step pdf_numPages sheet_to_json m click_back =
    (if (pageNumber (st (world m)) <=? 1)%Z then None
     else Some {| props := props m; cleanup := cleanup m;
                  world := exec previousPage (world m) |}) /\
  step pdf_numPages sheet_to_json m click_forward =
    (if (numPages (st (world m)) <=? pageNumber (st (world m)))%Z then None
     else Some {| props := props m; cleanup := cleanup m;
                  world := exec nextPage (world m) |}).
Proof.
  intros Hf Hp Hu Hn. unfold step. cbv zeta.
  rewrite (render_shape _ _ Hf). cbv zeta. rewrite Hp, Hu.
  apply Z.ltb_lt in Hn. rewrite Hn. split; reflexivity.
Qed.

(** X7. Paging composes to a round trip. From any reachable state of the
    viewer, a step by the forward control can be undone by the back
    control, which is then enabled, and a step back by a step forward:
    the page number, the page count, the URL and the rows are as
    before. *)
Theorem paging_round_trip (m : Mounted) :
  reachable pdf_numPages sheet_to_json m ->
  (forall m1, step pdf_numPages sheet_to_json m click_forward = Some m1 ->
     exists m2, step pdf_numPages sheet_to_json m1 click_back = Some m2 /\
                st (world m2) = st (world m) /\ props m2 = props m) /\
  (forall m1, step pdf_numPages sheet_to_json m click_back = Some m1 ->
     exists m2, step pdf_numPages sheet_to_json m1 click_forward = Some m2 /\
                st (world m2) = st (world m) /\ props m2 = props m).
Proof.
  intros Hreach. destruct (reachable_invariant Hreach) as [[H1 _] _].
  split; intros m1 Hstep.
  - destruct (@nav_step_file m m1 click_forward (or_intror eq_refl) Hstep) as (f & u & Hf & Hp & Hu).
    destruct (@step_keeps_urls m m1 click_forward ltac:(discriminate) Hstep)
      as (Hpr & Hcl & _ & _).
    apply forward_step in Hstep as (Hlt & Hn & Hw).
    destruct (paging_state (world m)) as [Hnext _].
    destruct (paging_state (world m1)) as [_ Hprev].
    assert (Hst1 : st (world m1) = Build_State (numPages (st (world m)))
                     (pageNumber (st (world m)) + 1) (fileUrl (st (world m)))
                     (excelData (st (world m)))) by (rewrite Hw; exact Hnext).
    edestruct (@nav_step_eq m1 f u) as [Hback _].
    + now rewrite Hpr.
    + exact Hp.
    + rewrite Hst1. exact Hu.
    + rewrite Hst1. exact Hn.
    + rewrite Hback, Hst1. cbn [pageNumber].
      assert (Hgt : (pageNumber (st (world m)) + 1 <=? 1)%Z = false) by (apply Z.leb_gt; lia).
      rewrite Hgt. eexists. split; [reflexivity|]. cbn [world props].
      split; [|exact Hpr]. rewrite Hprev, Hst1. cbn [numPages pageNumber fileUrl excelData].
      destruct (st (world m)) as [n pg fu ex]. cbn. f_equal. lia.
  - destruct (@nav_step_file m m1 click_back (or_introl eq_refl) Hstep) as (f & u & Hf & Hp & Hu).
    destruct (@step_keeps_urls m m1 click_back ltac:(discriminate) Hstep)
      as (Hpr & Hcl & _ & _).
    apply back_step in Hstep as (Hlt & Hn & Hw).
    destruct (paging_state (world m)) as [_ Hprev].
    destruct (paging_state (world m1)) as [Hnext _].
    destruct (reachable_invariant Hreach) as [[_ Hb] _].
    assert (Hst1 : st (world m1) = Build_State (numPages (st (world m)))
                     (pageNumber (st (world m)) - 1) (fileUrl (st (world m)))
                     (excelData (st (world m)))) by (rewrite Hw; exact Hprev).
    edestruct (@nav_step_eq m1 f u) as [_ Hfwd].
    + now rewrite Hpr.
    + exact Hp.
    + rewrite Hst1. exact Hu.
    + rewrite Hst1. exact Hn.
    + rewrite Hfwd, Hst1. cbn [pageNumber numPages].
      assert (Hgt : (numPages (st (world m)) <=? pageNumber (st (world m)) - 1)%Z = false)
        by (apply Z.leb_gt; lia).
      rewrite Hgt. eexists. split; [reflexivity|]. cbn [world props].
      split; [|exact Hpr]. rewrite Hnext, Hst1. cbn [numPages pageNumber fileUrl excelData].
      destruct (st (world m)) as [n pg fu ex]. cbn. f_equal. lia.
Qed.

(** *** Reads that complete late *)

(** X8. A read that completes is not checked against the file that is
    active by then. When its bytes parse, the rows become the parsed rows
    whatever file they came from, and when the active file is a
    spreadsheet they are what the viewer shows, under the tab of the
    active file. When [read] throws on the bytes, the handler ends
    before [setExcelData]: the render state is what it was and nothing
    is logged. In both cases the read is no longer pending. *)
Theorem completed_read_is_shown
    (m m' : Mounted) (k : nat) (readFile shownFile : File) :
  nth_error (reads (world m)) k = Some readFile ->
  activeFile (props m) = Some shownFile ->
  isPdfName shownFile = false -> isExcelName shownFile = true ->
  step pdf_numPages sheet_to_json m (reader_onload k) = Some m' ->
  activeFile (props m') = Some shownFile /\
  reads (world m') = removeNth k (reads (world m)) /\
  match sheet_to_json (content readFile) with
  | Some rows =>
      excelData (st (world m')) = Some rows /\
      render (props m') (st (world m')) =
        Viewer (tabsFrom 0 (activeFileIndex (props m)) (files (props m)))
               (ExcelTable rows)
  | None =>
      st (world m') = st (world m) /\ log (world m') = log (world m)
  end.
Proof.
  intros Hk Hf Hp Hx Hstep. rewrite reader_step_eq, Hk in Hstep.
  injection Hstep as <-. cbn [props world].
  split; [exact Hf|].
  destruct (sheet_to_json (content readFile)) as [rows|].
  - split; [reflexivity|]. split; [reflexivity|].
    rewrite (render_shape _ _ Hf). cbv zeta. rewrite Hp, Hx. reflexivity.
  - split; [reflexivity|]. split; reflexivity.
Qed.

End PreviewURLs.

Section PreviewMoreRuns.
Import DocViewer.

Lemma viewer_releases_object_urls_witness :
  run threePages noRows (mount previewProps emptyBrowser)
      [document_loaded; click_forward; click_tab 1] = Some secondTab /\
  fileUrl (st (world pageTwo)) = Some 0 /\
  ~ liveURL (world secondTab) 0.
Proof.
  assert (Hrun : run threePages noRows (mount previewProps emptyBrowser)
                   [document_loaded; click_forward; click_tab 1] = Some secondTab)
    by (vm_compute; reflexivity).
  split; [exact Hrun|]. split; [vm_compute; reflexivity|].
  destruct (@viewer_releases_object_urls threePages noRows _ _ _ _ Hrun) as (_ & Hlive & _).
  intros Hl. specialize (Hlive 0 (Nat.le_0_l _) Hl). vm_compute in Hlive. discriminate.
Defined.


Lemma paging_round_trip_witness :
  reachable threePages noRows pageTwo /\
  step threePages noRows pageTwo click_forward = Some pageThree /\
  exists m2, step threePages noRows pageThree click_back = Some m2 /\
             st (world m2) = st (world pageTwo).
Proof.
  assert (Hstep : step threePages noRows pageTwo click_forward = Some pageThree)
    by (vm_compute; reflexivity).
  split; [exact pageTwo_reachable|]. split; [exact Hstep|].
  destruct (@paging_round_trip threePages noRows pageTwo pageTwo_reachable) as [Hfwd _].
  destruct (Hfwd pageThree Hstep) as (m2 & H2 & Hst & _).
  exists m2. split; assumption.
Defined.

Lemma completed_read_is_shown_witness :
  reads (world secondSheetShown) = [sheet_a] /\
  activeFile (props secondSheetShown) = Some sheet_b /\
  step threePages oneCell secondSheetShown (reader_onload 0) = Some staleRowsShown /\
  excelData (st (world secondSheetShown)) = Some [["b"]] /\
  excelData (st (world staleRowsShown)) = Some [["a"]] /\
  activeFile (props staleRowsShown) = Some sheet_b /\
  reads (world badReadPending) = [sheet_bad] /\
  step threePages oneCell badReadPending (reader_onload 0) = Some badReadDone /\
  excelData (st (world badReadDone)) = Some [["b"]] /\
  reads (world badReadDone) = [].
Proof.
  assert (Hk : nth_error (reads (world secondSheetShown)) 0 = Some sheet_a)
    by (vm_compute; reflexivity).
  assert (Hf : activeFile (props secondSheetShown) = Some sheet_b)
    by (vm_compute; reflexivity).
  assert (Hstep : step threePages oneCell secondSheetShown (reader_onload 0)
                  = Some staleRowsShown) by (vm_compute; reflexivity).
  destruct (@completed_read_is_shown threePages oneCell _ _ _ _ _ Hk Hf
              eq_refl eq_refl Hstep) as (Ha & _ & Hx & _).
  assert (Hk' : nth_error (reads (world badReadPending)) 0 = Some sheet_bad)
    by (vm_compute; reflexivity).
  assert (Hf' : activeFile (props badReadPending) = Some sheet_b)
    by (vm_compute; reflexivity).
  assert (Hstep' : step threePages oneCell badReadPending (reader_onload 0)
                   = Some badReadDone) by (vm_compute; reflexivity).
  destruct (@completed_read_is_shown threePages oneCell _ _ _ _ _ Hk' Hf'
              eq_refl eq_refl Hstep') as (_ & Hr' & Hst' & _).
  split; [vm_compute; reflexivity|]. split; [exact Hf|]. split; [exact Hstep|].
  split; [vm_compute; reflexivity|]. split; [exact Hx|]. split; [exact Ha|].
  split; [vm_compute; reflexivity|]. split; [exact Hstep'|].
  split; [rewrite Hst'; vm_compute; reflexivity | rewrite Hr'; vm_compute; reflexivity].
Defined.

End PreviewMoreRuns.

(** ** More on the form (ExtractionForm.tsx) *)
Section FormMore.
Import ExtractionForm FormPage.

(** *** The record effect *)

Lemma setValue_world (k : Key) (d : ShipmentData) (w : World State) :
  exec (setValue k d) w =
  mkWorld {| values := assign k d (values (st w)); saveStatus := saveStatus (st w) |}
          (baseURL w) (log w ++ [ev_setValue (assign k d (values (st w)))])
          (inflight w) (objectURLs w) (reads w) (timers w) (now w).
Proof. reflexivity. Qed.

Lemma forEach_setValue (d : ShipmentData) (l : list Key) (w : World State) :
  let w' := exec (forEach l (fun k => setValue k d)) w in
  values (st w') = fold_left (fun v k => assign k d v) l (values (st w)) /\
  saveStatus (st w') = saveStatus (st w) /\
  inflight w' = inflight w /\ timers w' = timers w /\ now w' = now w /\
  baseURL w' = baseURL w.
Proof.
  revert w. induction l as [|k l IH]; intros w; cbv zeta.
  - repeat split.
  - assert (Hseq : exec (forEach (k :: l) (fun k => setValue k d)) w
                   = exec (forEach l (fun k => setValue k d)) (exec (setValue k d) w)).
    { unfold exec at 1. cbn [forEach]. now rewrite runState_seq. }
    rewrite Hseq. destruct (IH (exec (setValue k d) w)) as (Hv & Hs & Hi & Ht & Hn & Hb).
    rewrite Hv, Hs, Hi, Ht, Hn, Hb, setValue_world. repeat split.
Qed.

(** X9. When the record the form is given is non-null, the effect copies
    every one of its ten fields into the form, whatever the form held
    (edits of the user included), and touches nothing else: the save
    status, the requests in flight and the timers are as before. When
    the record is null the effect does nothing, so the form keeps the
    values it had. *)
Theorem record_effect_overwrites_form (record : ShipmentData) (w : World State) :
  values (st (exec (dataEffect (Some record)) w)) = record /\
  saveStatus (st (exec (dataEffect (Some record)) w)) = saveStatus (st w) /\
  inflight (exec (dataEffect (Some record)) w) = inflight w /\
  timers (exec (dataEffect (Some record)) w) = timers w /\
  exec (dataEffect None) w = w.
Proof.
  unfold dataEffect.
  destruct (forEach_setValue record keys w) as (Hv & Hs & Hi & Ht & _).
  split; [|auto].
  rewrite Hv. destruct record, (values (st w)). reflexivity.
Qed.

(** *** The download *)

Lemma revokeBlob_last (l : list (option string)) (x : option string) :
  revokeBlob (length l) (l ++ [x]) = l ++ [None].
Proof. induction l as [|y l IH]; cbn; [reflexivity | now rewrite IH]. Qed.

Lemma anchor_eqb_refl (a : Anchor) : anchor_eqb a a = true.
Proof. unfold anchor_eqb. now rewrite Nat.eqb_refl, String.eqb_refl. Qed.

Lemma handleDownload_run (stringify : ShipmentData -> string)
    (currentData : ShipmentData) (dom : Dom) :
  runState (handleDownload stringify currentData) dom =
  (tt, {| body := body dom;
          blobs := blobs dom ++ [None];
          saved := saved dom ++ [(downloadName currentData, stringify currentData)] |}).
Proof.
  unfold handleDownload, createBlobURL, appendChild, click, removeChild, revokeBlobURL.
  cbn -[downloadName rev removeFirst revokeBlob nth_error].
  rewrite nth_error_app2 by lia. rewrite Nat.sub_diag.
  cbn -[downloadName rev removeFirst revokeBlob].
  rewrite rev_unit. cbn [removeFirst]. rewrite anchor_eqb_refl, rev_involutive.
  now rewrite revokeBlob_last.
Qed.

(** X10. A download saves one file, with the JSON text of the form values
    at the time of the click. Its name is [shipment_data_<BOL>.json] when
    the bill-of-lading field is a non-empty text, and
    [shipment_data_export.json] when the field is null or empty. The page
    is left as it was: the link is off the body again, the object URL
    that was made is revoked, and no other URL is touched. *)
Theorem download_saves_and_cleans_up (stringify : ShipmentData -> string)
    (currentData : ShipmentData) (dom : Dom) :
  let dom' := snd (runState (handleDownload stringify currentData) dom) in
  saved dom' = saved dom ++ [(downloadName currentData, stringify currentData)] /\
  body dom' = body dom /\
  nth_error (blobs dom') (length (blobs dom)) = Some None /\
  length (blobs dom') = S (length (blobs dom)) /\
  firstn (length (blobs dom)) (blobs dom') = blobs dom /\
  (forall b, bill_of_lading_number currentData = Some b -> b <> "" ->
             downloadName currentData
             = String.append "shipment_data_" (String.append b ".json")) /\
  (bill_of_lading_number currentData = None \/
   bill_of_lading_number currentData = Some "" ->
   downloadName currentData = "shipment_data_export.json").
Proof.
  cbv zeta. rewrite handleDownload_run. cbn [snd saved body blobs].
  split; [reflexivity|]. split; [reflexivity|]. split.
  { rewrite nth_error_app2 by lia. now rewrite Nat.sub_diag. }
  split; [rewrite length_app; cbn; lia|]. split.
  { rewrite firstn_app, Nat.sub_diag, firstn_all. cbn. apply app_nil_r. }
  unfold downloadName. split.
  - intros b -> Hb. apply String.eqb_neq in Hb. now rewrite Hb.
  - intros [-> | ->]; reflexivity.
Qed.

Lemma download_saves_and_cleans_up_witness :
  let dom := {| body := []; blobs := [Some "kept"]; saved := [] |} in
  let dom' := snd (runState (handleDownload (fun _ => "{}") sampleRecord) dom) in
  bill_of_lading_number sampleRecord = Some "BOL123" /\ "BOL123" <> "" /\
  saved dom' = [("shipment_data_BOL123.json", "{}")] /\
  blobs dom' = [Some "kept"; None] /\
  (bill_of_lading_number blank = None \/ bill_of_lading_number blank = Some "") /\
  downloadName blank = "shipment_data_export.json".
Proof.
  intros dom dom'.
  assert (Hb : bill_of_lading_number sampleRecord = Some "BOL123") by reflexivity.
  assert (Hne : "BOL123" <> "") by discriminate.
  assert (Hnone : bill_of_lading_number blank = None \/
                  bill_of_lading_number blank = Some "") by (now left).
  destruct (@download_saves_and_cleans_up (fun _ => "{}") sampleRecord dom)
    as (Hs & _ & _ & _ & _ & Hname & _).
  destruct (@download_saves_and_cleans_up (fun _ => "{}") blank dom)
    as (_ & _ & _ & _ & _ & _ & Hexport).
  split; [exact Hb|]. split; [exact Hne|]. split.
  - unfold dom'. rewrite Hs, (Hname "BOL123" Hb Hne). reflexivity.
  - split; [reflexivity|]. split; [exact Hnone | exact (Hexport Hnone)].
Defined.

End FormMore.

(** *** The page as the user drives it *)
Section FormRuns.
Import ExtractionForm FormPage.

Lemma insertTimer_nonempty (t : Timer) (ts : list Timer) : insertTimer t ts <> [].
Proof.
  destruct ts as [|t' r]; cbn [insertTimer]; [|destruct (due t <? due t')%nat];
    discriminate.
Qed.

Lemma fireDue_timers (P : Timer -> Prop) (deadline : nat) (ts : list Timer)
    (w : World State) :
  Forall P ts -> Forall P (timers (fireDue deadline ts w)).
Proof.
  intros Hall. revert w. induction Hall as [|t r Ht Hr IH]; intros w.
  - constructor.
  - rewrite fireDue_cons. destruct (due t <=? deadline)%nat; [apply IH|].
    now constructor.
Qed.

Lemma fireDue_now (deadline : nat) (ts : list Timer) (w : World State) :
  now w <= deadline -> now (fireDue deadline ts w) <= deadline.
Proof.
  revert w. induction ts as [|t r IH]; intros w Hw; [exact Hw|].
  rewrite fireDue_cons. destruct (due t <=? deadline)%nat eqn:Ht; [|exact Hw].
  apply IH. apply Nat.leb_le in Ht. destruct (callback t). cbn. lia.
Qed.

(** Either no timer fired and the world is as it was, or the status is
    idle. *)
Lemma fireDue_cases (deadline : nat) (ts : list Timer) (w : World State) :
  fireDue deadline ts w = with_timers (fun _ => ts) w \/
  saveStatus (st (fireDue deadline ts w)) = idle.
Proof.
  destruct ts as [|t r]; [now left|]. rewrite fireDue_cons.
  destruct (due t <=? deadline)%nat; [right | now left].
  apply fireDue_idle. now destruct (callback t).
Qed.

Lemma advance_values (dt : nat) (w : World State) :
  values (st (advance dt w)) = values (st w).
Proof. unfold advance. cbn [with_now st]. apply fireDue_values. Qed.

Lemma step_resetPending (w w' : World State) (e : UiEvent) :
  resetPending w -> step w e = Some w' -> resetPending w'.
Proof.
  intros [Hterm Hall] Hstep. destruct e as [| k r | dt | v | d]; cbn [step] in Hstep.
  - destruct (saveDisabled (st w)); [discriminate|]. injection Hstep as <-.
    rewrite handleSaveToBackend_world. split; [cbn; intros [|]; discriminate | exact Hall].
  - destruct (nth_error (inflight w) k); [|discriminate]. injection Hstep as <-.
    rewrite handleSaveToBackend_settled_world. cbn [timers now with_inflight].
    split; [intros _; apply insertTimer_nonempty|].
    apply insertTimer_Forall; [cbn; lia | exact Hall].
  - injection Hstep as <-. unfold advance, resetPending.
    cbn [with_now st timers now].
    split.
    + destruct (fireDue_cases (now w + dt) (timers w) w) as [-> | Hidle].
      * cbn [with_timers st timers]. exact Hterm.
      * rewrite Hidle. intros [|]; discriminate.
    + apply fireDue_timers. eapply Forall_impl; [|exact Hall].
      cbn. intros t Ht. lia.
  - injection Hstep as <-. split; [exact Hterm | exact Hall].
  - injection Hstep as <-. destruct d as [d|]; [|split; [exact Hterm | exact Hall]].
    unfold resetPending, dataEffect.
    destruct (forEach_setValue d keys w) as (_ & -> & _ & -> & -> & _).
    split; [exact Hterm | exact Hall].
Qed.

Lemma reachable_resetPending (w : World State) : reachable w -> resetPending w.
Proof.
  intros (env & es & Hrun). revert es w Hrun.
  apply runEvents_invariant.
  - split; [intros [|]; discriminate | constructor].
  - intros c e c' _. apply step_resetPending.
Qed.

(** X11. In every state of the form the user can reach, a success or an
    error indication has its reset pending and is gone 3000 ms later at
    the latest, whatever was clicked, edited or settled before: after
    3000 ms with no further event the status is idle and the Save button
    is enabled. The button is disabled exactly while the status is
    saving or success, so it can be clicked again at once after an
    error. No step other than an edit of the user or the arrival of a
    non-null record changes the form values. *)
Theorem terminal_status_expires (w : World State) :
  reachable w ->
  (saveStatus (st w) = success \/ saveStatus (st w) = error ->
   saveStatus (st (advance 3000 w)) = idle /\
   saveDisabled (st (advance 3000 w)) = false /\
   values (st (advance 3000 w)) = values (st w)) /\
  (step w click_save = None <->
   saveStatus (st w) = saving \/ saveStatus (st w) = success) /\
  (forall e w', step w e = Some w' ->
     (forall v, e <> user_edits v) -> (forall d, e <> record_changes (Some d)) ->
     values (st w') = values (st w)).
Proof.
  intros Hreach. destruct (reachable_resetPending Hreach) as [Hterm Hall].
  split; [|split].
  - intros Hst. specialize (Hterm Hst).
    assert (Hidle : saveStatus (st (advance 3000 w)) = idle).
    { unfold advance. cbn [with_now st].
      destruct (timers w) as [|t r]; [contradiction|].
      inversion_clear Hall as [|? ? Ht _]. rewrite fireDue_cons.
      apply Nat.leb_le in Ht. rewrite Ht. apply fireDue_idle. now destruct (callback t). }
    split; [exact Hidle|]. split; [|apply advance_values].
    unfold saveDisabled. now rewrite Hidle.
  - cbn [step]. unfold saveDisabled.
    destruct (saveStatus (st w)); split; try discriminate; auto;
      intros [|]; discriminate.
  - intros e w' Hstep Hedit Hrecord.
    destruct e as [| k r | dt | v | d]; cbn [step] in Hstep.
    + destruct (saveDisabled (st w)); [discriminate|]. injection Hstep as <-.
      now rewrite handleSaveToBackend_world.
    + destruct (nth_error (inflight w) k); [|discriminate]. injection Hstep as <-.
      now rewrite handleSaveToBackend_settled_world.
    + injection Hstep as <-. apply advance_values.
    + now destruct (Hedit v).
    + destruct d as [d|]; [now destruct (Hrecord d)|]. now injection Hstep as <-.
Qed.

Lemma terminal_status_expires_witness :
  let w := exec (handleSaveToBackend_settled (Rejected "Network Error"))
             (with_inflight (removeNth 0) (exec handleSaveToBackend (start None))) in
  reachable w /\
  saveStatus (st w) = error /\
  saveStatus (st (advance 3000 w)) = idle /\
  step w click_save <> None.
Proof.
  intros w.
  assert (Hreach : reachable w).
  { exists None, [click_save; save_settled 0 (Rejected "Network Error")].
    vm_compute. reflexivity. }
  assert (Herr : saveStatus (st w) = error) by reflexivity.
  destruct (@terminal_status_expires w Hreach) as (Hexp & Hbtn & _).
  split; [exact Hreach|]. split; [exact Herr|].
  split; [exact (proj1 (Hexp (or_intror Herr)))|].
  intros Hnone. apply Hbtn in Hnone. rewrite Herr in Hnone.
  destruct Hnone; discriminate.
Defined.

(** *** Saves in flight *)

Lemma runEvents_app {C E : Type} (stp : C -> E -> option C) (es1 es2 : list E) (c : C) :
  runEvents stp c (es1 ++ es2) =
  match runEvents stp c es1 with
  | Some c1 => runEvents stp c1 es2
  | None => None
  end.
Proof.
  revert c. induction es1 as [|e es1 IH]; intros c; cbn; [reflexivity|].
  destruct (stp c e); [apply IH | reflexivity].
Qed.

Lemma removeNth_length {A : Type} (x : A) (l : list A) :
  length (removeNth 0 (l ++ [x])) = length l.
Proof. destruct l; cbn; [reflexivity|]. rewrite length_app. cbn. lia. Qed.

(** One failed save, a retry, and the reset timer of the failure: the
    status is idle again with one more save in flight. *)
Lemma one_more_in_flight (w : World State) :
  saveStatus (st w) = idle -> timers w = [] ->
  exists w',
    run w [click_save; save_settled 0 (Rejected "Network Error");
           click_save; time_passes 3000] = Some w' /\
    length (inflight w') = S (length (inflight w)) /\
    saveStatus (st w') = idle /\ timers w' = [].
Proof.
  intros Hidle Hno.
  unfold run. cbn [runEvents step]. unfold saveDisabled at 1. rewrite Hidle.
  rewrite handleSaveToBackend_world. cbn [inflight].
  set (req := saveRequest (baseURL w) (values (st w))).
  assert (Hhead : exists r0, nth_error (inflight w ++ [req]) 0 = Some r0)
    by (destruct (inflight w); cbn; eauto).
  destruct Hhead as [r0 ->].
  rewrite handleSaveToBackend_settled_world.
  cbn [st saveStatus terminalStatus with_inflight inflight timers now baseURL values
       log objectURLs reads].
  unfold saveDisabled at 1. cbn [st saveStatus].
  rewrite handleSaveToBackend_world.
  cbn [st saveStatus inflight timers now baseURL values log objectURLs reads].
  rewrite Hno. cbn [insertTimer].
  eexists. split; [reflexivity|].
  unfold advance. cbn [timers now with_now inflight st].
  rewrite fireDue_cons. cbn [resetTimer due callback].
  rewrite Nat.leb_refl. cbn [fireDue].
  split; [|split; reflexivity].
  cbn -[removeNth]. rewrite length_app, removeNth_length. cbn. lia.
Qed.

(** X12. The disabled flag of the Save button does not bound the saves in
    flight: for every number there is a state the user can reach with
    that many save requests in flight, the status idle and the button
    enabled. (A retry after a failure is in flight when the reset timer
    of the failure puts the status back to idle.) *)
Theorem saves_in_flight_unbounded (n : nat) :
  exists w, reachable w /\ length (inflight w) = n /\
            saveStatus (st w) = idle /\ timers w = [] /\
            step w click_save <> None.
Proof.
  assert (H : exists w, reachable w /\ length (inflight w) = n /\
                        saveStatus (st w) = idle /\ timers w = []).
  { induction n as [|n (w & (env & es & Hrun) & Hlen & Hidle & Hno)].
    - exists (start None). split; [now exists None, []|]. repeat split.
    - destruct (one_more_in_flight w Hidle Hno) as (w' & Hrun' & Hlen' & Hidle' & Hno').
      exists w'. split; [|repeat split; congruence].
      exists env. eexists (es ++ _). unfold run in *.
      rewrite runEvents_app, Hrun. exact Hrun'. }
  destruct H as (w & Hreach & Hlen & Hidle & Hno).
  exists w. repeat split; auto.
  cbn [step]. unfold saveDisabled. rewrite Hidle. discriminate.
Qed.

End FormRuns.

(** ** The two ways into the intake surface (FileUpload.tsx) *)
Section IntakePaths.
Import App.

Lemma submit_ignores_log (fs : list File) (f : list Event -> list Event) (w : World State) :
  st (exec (handleFilesSelected fs) (with_log f w)) = st (exec (handleFilesSelected fs) w) /\
  inflight (exec (handleFilesSelected fs) (with_log f w))
  = inflight (exec (handleFilesSelected fs) w).
Proof.
  destruct (hasPdf fs && hasExcel fs) eqn:Hacc.
  - rewrite !handleFilesSelected_accepted by assumption. split; reflexivity.
  - rewrite !handleFilesSelected_rejected by assumption. split; reflexivity.
Qed.

(** X13. Dropping files on the intake surface and picking the same files
    in the file picker end in the same application state and the same
    requests in flight: both hand the files, unchanged and in order, to
    [handleFilesSelected] once. A change event without a file list does
    nothing. *)
Theorem drop_and_pick_agree
    (w wd wc wn : World State) (selectedFiles : list File) :
  Shell.step w (Shell.drop selectedFiles) = Some wd ->
  Shell.step w (Shell.change (Some selectedFiles)) = Some wc ->
  Shell.step w (Shell.change None) = Some wn ->
  st wd = st wc /\ inflight wd = inflight wc /\ wn = w /\
  (isLoading (st w) = false ->
   st wc = st (exec (handleFilesSelected selectedFiles) w) /\
   wc = exec (handleFilesSelected selectedFiles) w).
Proof.
  unfold Shell.step. destruct (length (files (st w)) =? 0)%nat; [|discriminate].
  intros [= <-] [= <-] [= <-].
  unfold FileUpload.handleDrop, FileUpload.handleChange.
  destruct (isLoading (st w)); cbn [negb].
  - repeat split; discriminate.
  - change (exec (emit ev_preventDefault ;; handleFilesSelected selectedFiles) w)
      with (exec (handleFilesSelected selectedFiles)
                 (with_log (fun l => l ++ [ev_preventDefault]) w)).
    destruct (submit_ignores_log selectedFiles (fun l => l ++ [ev_preventDefault]) w)
      as [Hst Hin].
    repeat split; assumption.
Qed.

Lemma drop_and_pick_agree_witness :
  let w := Shell.start None in
  let sel := [bol_pdf; packing_xlsx] in
  exists wd,
    Shell.step w (Shell.drop sel) = Some wd /\
    Shell.step w (Shell.change (Some sel)) = Some (exec (handleFilesSelected sel) w) /\
    Shell.step w (Shell.change None) = Some w /\
    st wd = st (exec (handleFilesSelected sel) w) /\
    files (st wd) = sel.
Proof.
  intros w sel.
  destruct (Shell.step w (Shell.drop sel)) as [wd|] eqn:Hd; [|discriminate].
  exists wd.
  assert (Hc : Shell.step w (Shell.change (Some sel))
               = Some (exec (handleFilesSelected sel) w)) by reflexivity.
  assert (Hn : Shell.step w (Shell.change None) = Some w) by reflexivity.
  destruct (@drop_and_pick_agree w wd _ _ sel Hd Hc Hn) as (Hst & _).
  split; [reflexivity|]. split; [exact Hc|]. split; [exact Hn|].
  split; [exact Hst|]. rewrite Hst. reflexivity.
Defined.

End IntakePaths.
